(** * Assignment scoring and rating: the model layer of [model/assignment.py]

    A shallow embedding of the [Assignment] and [AssignmentParticipation]
    models: the time-window properties of a participation, the save-time
    validation of an assignment, the participation aggregator
    ([recompute_results], [set_disqualified]) and the rating scheduler
    ([rate]).

    Conventions.  A [DateTimeField] value is an integer number of
    microseconds since the epoch and a [DurationField] value an integer
    number of microseconds, both in [Z]; a nullable attribute is an
    [option]; a sum of a datetime and a duration outside the years 1 to
    9999 raises [OverflowError].  A [FloatField] value is a rational in
    [Q], compared with Leibniz equality (only the stored value and the
    sentinel matter here).
    The clock is never read: every operation takes the sampled [now], which
    is what the [_now] cached properties provide. *)

From Stdlib Require Import ZArith NArith QArith Lia Bool String List.
From stdpp Require Import base option list sorting gmap.
Import ListNotations.

Local Open Scope Z_scope.

(** ** Exceptions and results *)

(** The exceptions that the modelled code raises or lets through.  Each
    carries the text of its message. *)
Inductive exn : Type :=
| ValidationError (msg : string)
| TypeError (msg : string)
| DatabaseError (msg : string)
| OverflowError (msg : string)
| Exception_ (msg : string).

(** An evaluation either returns a value or raises. *)
Inductive result (A : Type) : Type :=
| Val (a : A)
| Raise (e : exn).
Arguments Val {A} a.
Arguments Raise {A} e.

(** [x is None] on a nullable attribute. *)
Definition is_none {A : Type} (o : option A) : bool :=
  match o with
  | None => true
  | Some _ => false
  end.

(** ** Records of the data model *)

Module Assignment.

Record t : Type := mk {
  pk : Z;
  start_time : option Z;
  end_time : option Z;
  time_limit : option Z;
  is_rated : bool;
  format_name : string;
  format_config : option string;
  problem_label_script : string;
  user_count : Z
}.

Definition set_user_count (n : Z) (self : t) : t :=
  mk (pk self) (start_time self) (end_time self) (time_limit self) (is_rated self)
     (format_name self) (format_config self) (problem_label_script self) n.

End Assignment.

Module Profile.

Record t : Type := mk {
  pk : Z;
  current_assignment : option Z
}.

Definition set_current_assignment (c : option Z) (self : t) : t :=
  mk (pk self) c.

End Profile.

Module Rating.

Record t : Type := mk {
  user : Z;
  assignment : Z;
  participation : Z;
  rank : Z;
  rating : Z;
  volatility : Z;
  last_rated : Z
}.

End Rating.

Module AssignmentSubmission.

Record t : Type := mk {
  submission : Z;
  problem : Z;
  participation : Z;
  points : Q;
  is_pretest : bool
}.

End AssignmentSubmission.

Module AssignmentParticipation.

Definition LIVE : Z := 0.
Definition SPECTATE : Z := -1.

Record t : Type := mk {
  pk : Z;
  assignment : Z;
  user : Z;
  real_start : Z;
  score : Q;
  cumtime : N;
  is_disqualified : bool;
  tiebreaker : Q;
  virtual : Z;
  format_data : option string
}.

Definition set_score (s : Q) (self : t) : t :=
  mk (pk self) (assignment self) (user self) (real_start self) s
     (cumtime self) (is_disqualified self) (tiebreaker self) (virtual self)
     (format_data self).

Definition set_cumtime (c : N) (self : t) : t :=
  mk (pk self) (assignment self) (user self) (real_start self) (score self)
     c (is_disqualified self) (tiebreaker self) (virtual self)
     (format_data self).

Definition set_format_data (f : option string) (self : t) : t :=
  mk (pk self) (assignment self) (user self) (real_start self) (score self)
     (cumtime self) (is_disqualified self) (tiebreaker self) (virtual self)
     f.

Definition set_is_disqualified (d : bool) (self : t) : t :=
  mk (pk self) (assignment self) (user self) (real_start self) (score self)
     (cumtime self) d (tiebreaker self) (virtual self) (format_data self).

(** [live] and [spectate]: comparison of [virtual] with the two
    reserved ids. *)
Definition live (self : t) : bool := virtual self =? LIVE.
Definition spectate (self : t) : bool := virtual self =? SPECTATE.

(** Truth value of an integer and of an optional [timedelta]: zero and
    [None] are false, and so is the zero duration. *)
Definition int_truth (n : Z) : bool := negb (n =? 0).
Definition timedelta_truth (d : option Z) : bool :=
  match d with
  | Some l => negb (l =? 0)
  | None => false
  end.

(** The least and the greatest [datetime], the first microsecond of year 1
    and the last of year 9999, in microseconds since the epoch (UTC). *)
Definition DATETIME_MIN : Z := -62135596800000000.
Definition DATETIME_MAX : Z := 253402300799999999.

(** [datetime + timedelta]: a sum outside the range of [datetime] raises
    [OverflowError]. *)
Definition datetime_add (t d : Z) : result Z :=
  if (DATETIME_MIN <=? t + d) && (t + d <=? DATETIME_MAX) then Val (t + d)
  else Raise (OverflowError "date value out of range").

(** [datetime - datetime] and [min] on attributes that may be [None]. *)
Definition datetime_sub (a b : option Z) : result Z :=
  match a, b with
  | Some x, Some y => Val (x - y)
  | _, _ => Raise (TypeError "unsupported operand type(s) for -")
  end.

Definition datetime_min (a : Z) (b : option Z) : result Z :=
  match b with
  | Some y => Val (Z.min a y)
  | None => Raise (TypeError "'<' not supported between instances")
  end.

(** The value a property returns when a sum is its result. *)
Definition returned (r : result Z) : result (option Z) :=
  match r with
  | Val t => Val (Some t)
  | Raise e => Raise e
  end.

(** The [start] property. *)
Definition start (assignment : Assignment.t) (self : t) : option Z :=
  if is_none (Assignment.time_limit assignment) && (live self || spectate self)
  then Assignment.start_time assignment
  else Some (real_start self).

(** The [end_time] property. *)
Definition end_time (assignment : Assignment.t) (self : t)
  : result (option Z) :=
  if spectate self then Val (Assignment.end_time assignment)
  else if int_truth (virtual self) then
    if timedelta_truth (Assignment.time_limit assignment) then
      match Assignment.time_limit assignment with
      | Some l =>
          match datetime_add (real_start self) l with
          | Val t => Val (Some t)
          | Raise e => Raise e
          end
      | None => Raise (TypeError "unsupported operand type(s) for +")
      end
    else
      match datetime_sub (Assignment.end_time assignment)
                         (Assignment.start_time assignment) with
      | Val w =>
          match datetime_add (real_start self) w with
          | Val t => Val (Some t)
          | Raise e => Raise e
          end
      | Raise e => Raise e
      end
  else
    match Assignment.time_limit assignment with
    | None => Val (Assignment.end_time assignment)
    | Some l =>
        match datetime_add (real_start self) l with
        | Val t =>
            match datetime_min t (Assignment.end_time assignment) with
            | Val m => Val (Some m)
            | Raise e => Raise e
            end
        | Raise e => Raise e
        end
    end.

(** The [ended] property, at the sampled [now]. *)
Definition ended (assignment : Assignment.t) (self : t) (now : Z)
  : result bool :=
  match end_time assignment self with
  | Val (Some e) => Val (e <? now)
  | Val None => Val false
  | Raise x => Raise x
  end.

(** The [time_remaining] property, at the sampled [now]; falling off the
    end of the body returns [None]. *)
Definition time_remaining (assignment : Assignment.t) (self : t) (now : Z)
  : result (option Z) :=
  match end_time assignment self with
  | Val (Some e) => if now <=? e then Val (Some (e - now)) else Val None
  | Val None => Val None
  | Raise x => Raise x
  end.

End AssignmentParticipation.


(** ** The persisted state *)

(** The tables the modelled operations read and write.  [banned_users] is
    the through table of the many-to-many field [Assignment.banned_users]:
    pairs of an assignment id and a profile id. *)
Record DB : Type := mkDB {
  assignments : list Assignment.t;
  participations : list AssignmentParticipation.t;
  submissions : list AssignmentSubmission.t;
  ratings : list Rating.t;
  profiles : list Profile.t;
  banned_users : gset (Z * Z)
}.

Definition set_participations (ps : list AssignmentParticipation.t) (d : DB) : DB :=
  mkDB (assignments d) ps (submissions d) (ratings d) (profiles d) (banned_users d).

Definition set_ratings (rs : list Rating.t) (d : DB) : DB :=
  mkDB (assignments d) (participations d) (submissions d) rs (profiles d) (banned_users d).

Definition set_profiles (us : list Profile.t) (d : DB) : DB :=
  mkDB (assignments d) (participations d) (submissions d) (ratings d) us (banned_users d).

Definition set_banned_users (b : gset (Z * Z)) (d : DB) : DB :=
  mkDB (assignments d) (participations d) (submissions d) (ratings d) (profiles d) b.

(** *** Queries *)

(** The [range] lookup is SQL [BETWEEN]: both bounds are included, and a
    comparison with NULL matches no row. *)
Definition between (lo hi t : Z) : bool := (lo <=? t) && (t <=? hi).

Definition end_time_range (lo : option Z) (hi : Z) (a : Assignment.t) : bool :=
  match lo, Assignment.end_time a with
  | Some l, Some e => between l hi e
  | _, _ => false
  end.

(** The assignment a foreign key points to. *)
Definition assignment_of (d : DB) (id : Z) : option Assignment.t :=
  List.find (fun a => Assignment.pk a =? id) (assignments d).

(** [Rating.objects.filter(assignment__end_time__range=(lo, hi))]: the
    join of a rating with its assignment. *)
Definition rating_in_range (lo : option Z) (hi : Z) (d : DB) (r : Rating.t) : bool :=
  match assignment_of d (Rating.assignment r) with
  | Some a => end_time_range lo hi a
  | None => false
  end.

(** [.delete()] on that queryset. *)
Definition Rating_delete_range (lo : option Z) (hi : Z) (d : DB) : result DB :=
  Val (set_ratings
         (List.filter (fun r => negb (rating_in_range lo hi d r)) (ratings d)) d).

(** [order_by('end_time')]: ascending, NULLs first; rows with equal keys
    come in an order the query does not fix. *)
Definition end_time_leb (a b : Assignment.t) : bool :=
  match Assignment.end_time a, Assignment.end_time b with
  | Some x, Some y => x <=? y
  | None, _ => true
  | Some _, None => false
  end.

Definition end_time_le (a b : Assignment.t) : Prop := end_time_leb a b = true.

(** Both assignments have an end and the first ends no later than the
    second. *)
Definition ends_no_later (a b : Assignment.t) : Prop :=
  exists x y, Assignment.end_time a = Some x /\ Assignment.end_time b = Some y /\ x <= y.

#[global] Instance end_time_le_dec (a b : Assignment.t) : Decision (end_time_le a b).
Proof. unfold end_time_le. apply bool_eq_dec. Defined.

(** [Assignment.objects.filter(is_rated=True, end_time__range=(lo, hi))]
    and the same queryset ordered by [end_time]. *)
Definition rated_in_range (lo : option Z) (hi : Z) (d : DB) : list Assignment.t :=
  List.filter (fun a => Assignment.is_rated a && end_time_range lo hi a)
              (assignments d).

Definition rated_in_range_ordered (lo : option Z) (hi : Z) (d : DB) : list Assignment.t :=
  merge_sort end_time_le (rated_in_range lo hi d).

(** [assignment.ratings.exists()]. *)
Definition ratings_exists (a : Assignment.t) (d : DB) : bool :=
  existsb (fun r => Rating.assignment r =? Assignment.pk a) (ratings d).

(** [participation.submissions]: the submission rows of a participation. *)
Definition submissions_of (self : AssignmentParticipation.t) (d : DB)
  : list AssignmentSubmission.t :=
  List.filter
    (fun s => AssignmentSubmission.participation s =? AssignmentParticipation.pk self)
    (submissions d).

(** *** Writes *)

Definition participation_exists (self : AssignmentParticipation.t) (d : DB) : bool :=
  existsb (fun r => AssignmentParticipation.pk r =? AssignmentParticipation.pk self)
          (participations d).

(** A table of participations with [f] applied to the rows of primary key
    [k]: what an UPDATE of that row does. *)
Definition update_row (k : Z)
    (f : AssignmentParticipation.t -> AssignmentParticipation.t)
    (rows : list AssignmentParticipation.t) : list AssignmentParticipation.t :=
  List.map (fun r => if AssignmentParticipation.pk r =? k then f r else r) rows.

(** The rows of primary key [pk p] exist and all hold [p]. *)
Definition stored (p : AssignmentParticipation.t) (d : DB) : Prop :=
  participation_exists p d = true /\
  forall r, In r (participations d) ->
            AssignmentParticipation.pk r = AssignmentParticipation.pk p -> r = p.

(** [self.save()]: the row with this primary key is overwritten, or the
    row is inserted when there is none. *)
Definition Participation_save (self : AssignmentParticipation.t) (d : DB) : result DB :=
  if participation_exists self d then
    Val (set_participations
           (update_row (AssignmentParticipation.pk self) (fun _ => self)
                       (participations d)) d)
  else Val (set_participations (participations d ++ [self]) d).

(** [self.save(update_fields=['score'])]: only the score column of the row
    is written; with no such row the save raises. *)
Definition Participation_save_score (self : AssignmentParticipation.t) (d : DB)
  : result DB :=
  if participation_exists self d then
    Val (set_participations
           (update_row (AssignmentParticipation.pk self)
                       (AssignmentParticipation.set_score
                          (AssignmentParticipation.score self))
                       (participations d)) d)
  else Raise (DatabaseError "Save with update_fields did not affect any rows.").

Definition Profile_save (self : Profile.t) (d : DB) : result DB :=
  if existsb (fun r => Profile.pk r =? Profile.pk self) (profiles d) then
    Val (set_profiles
           (List.map (fun r => if Profile.pk r =? Profile.pk self then self else r)
                     (profiles d)) d)
  else Val (set_profiles (profiles d ++ [self]) d).

(** [assignment.banned_users.add(user)] and [.remove(user)]. *)
Definition banned_users_add (a : Assignment.t) (u : Profile.t) (d : DB) : result DB :=
  Val (set_banned_users ({[ (Assignment.pk a, Profile.pk u) ]} ∪ banned_users d) d).

Definition banned_users_remove (a : Assignment.t) (u : Profile.t) (d : DB) : result DB :=
  Val (set_banned_users (banned_users d ∖ {[ (Assignment.pk a, Profile.pk u) ]}) d).

(** ** Operations on the persistence layer *)

(** The world an operation runs in: the committed database, a fuse, and
    the log of the calls made to the rating engine.  The fuse stands for a
    failure of the persistence layer: [Some n] lets [n] more statements
    through and fails the next one, [None] never fails. *)
Record World : Type := mkWorld {
  db : DB;
  fuse : option nat;
  calls : list Z
}.

Definition set_db (d : DB) (w : World) : World := mkWorld d (fuse w) (calls w).

Definition M (A : Type) : Type := World -> result A * World.

Definition ret {A : Type} (a : A) : M A := fun w => (Val a, w).

Definition bind {A B : Type} (m : M A) (k : A -> M B) : M B :=
  fun w =>
    match m w with
    | (Val a, w') => k a w'
    | (Raise e, w') => (Raise e, w')
    end.

Notation "x <- m ;; k" := (bind m (fun x => k))
  (at level 100, m at next level, right associativity).
Notation "m >> k" := (bind m (fun _ => k))
  (at level 100, right associativity).

(** One statement sent to the database: it burns the fuse. *)
Definition tick : M unit :=
  fun w =>
    match fuse w with
    | None => (Val tt, w)
    | Some (S n) => (Val tt, mkWorld (db w) (Some n) (calls w))
    | Some O => (Raise (DatabaseError "connection lost"), w)
    end.

Definition query {A : Type} (f : DB -> A) : M A :=
  tick >> fun w => (Val (f (db w)), w).

Definition execute (f : DB -> result DB) : M unit :=
  tick >> fun w =>
    match f (db w) with
    | Val d => (Val tt, set_db d w)
    | Raise e => (Raise e, w)
    end.

(** [with transaction.atomic():] as the outermost block of a connection in
    autocommit mode: when the body raises, the database is put back as it
    was on entry and the exception goes on. *)
Definition rollback {A : Type} (w : World) (r : result A * World)
  : result A * World :=
  match r with
  | (Val a, w') => (Val a, w')
  | (Raise e, w') => (Raise e, set_db (db w) w')
  end.

Definition atomic {A : Type} (m : M A) : M A :=
  fun w => rollback w (m w).

Fixpoint for_each {A : Type} (l : list A) (body : A -> M unit) : M unit :=
  match l with
  | [] => ret tt
  | x :: l' => body x >> for_each l' body
  end.

(** ** Values crossing the boundary to the collaborators *)

(** What the label function hands back: a [str] or something else. *)
Inductive pyobj : Type :=
| PyStr (s : string)
| PyOther.

Definition isinstance_str (o : pyobj) : bool :=
  match o with
  | PyStr _ => true
  | PyOther => false
  end.

(** Outcome of the body of a [try]: a value, or an exception caught by
    [except Exception as e], kept as the text of [str(e)]. *)
Inductive outcome : Type :=
| Returned (o : pyobj)
| Raised (msg : string).

(** The score written on a disqualified participation. *)
Definition DISQUALIFIED_SCORE : Q := (-9999) # 1.

Definition invalid_window : exn :=
  ValidationError "What is this? A assignment that ended before it starts?".

(** [self.start_time and self.end_time and self.start_time >= self.end_time];
    a [datetime] is always true, [None] is false. *)
Definition starts_after_end (self : Assignment.t) : bool :=
  match Assignment.start_time self, Assignment.end_time self with
  | Some s, Some e => e <=? s
  | _, _ => false
  end.

(** The three attributes a scoring format writes on a participation. *)
Definition with_results (r : Q * N * option string)
    (self : AssignmentParticipation.t) : AssignmentParticipation.t :=
  AssignmentParticipation.set_format_data (snd r)
    (AssignmentParticipation.set_cumtime (snd (fst r))
       (AssignmentParticipation.set_score (fst (fst r)) self)).

(** ** Sample data

    Small databases used to run the operations on concrete inputs: rated
    assignments ending at 50 and at 100, an unrated one, one live
    participation of user 7, one submission, one rating row per rated
    assignment. *)
Module Sample.

Definition a1 : Assignment.t :=
  Assignment.mk 1 (Some 0) (Some 50) None true "default" None "" 0.

Definition a2 : Assignment.t :=
  Assignment.mk 2 (Some 60) (Some 100) None true "default" None "" 0.

Definition a3 : Assignment.t :=
  Assignment.mk 3 (Some 0) (Some 50) None false "default" None "" 0.

Definition a4 : Assignment.t :=
  Assignment.mk 4 (Some 70) (Some 100) None true "default" None "" 0.

(** An assignment whose window is empty, one with no start yet, and one
    with a time limit of zero. *)
Definition a_inverted : Assignment.t :=
  Assignment.mk 5 (Some 10) (Some 10) None false "default" None "" 0.

Definition a_unset : Assignment.t :=
  Assignment.mk 6 None (Some 50) None false "default" None "" 0.

Definition a_zero_limit : Assignment.t :=
  Assignment.mk 8 (Some 0) (Some 50) (Some 0) false "default" None "" 0.

Definition u7 : Profile.t := Profile.mk 7 None.

Definition p1 : AssignmentParticipation.t :=
  AssignmentParticipation.mk 11 1 7 5 (0 # 1) 0%N false (0 # 1) 0 None.

(** A participation of user 7 in the unrated assignment, and a first
    virtual participation that started at 5. *)
Definition p3 : AssignmentParticipation.t :=
  AssignmentParticipation.mk 13 3 7 5 (0 # 1) 0%N false (0 # 1) 0 None.

Definition p_virtual : AssignmentParticipation.t :=
  AssignmentParticipation.mk 14 8 7 5 (0 # 1) 0%N false (0 # 1) 1 None.

Definition s1 : AssignmentSubmission.t :=
  AssignmentSubmission.mk 21 31 11 (40 # 1) false.

Definition s3 : AssignmentSubmission.t :=
  AssignmentSubmission.mk 23 31 13 (40 # 1) false.

Definition r1 : Rating.t := Rating.mk 7 1 11 1 1200 500 50.
Definition r2 : Rating.t := Rating.mk 7 2 12 1 1250 480 100.

Definition d0 : DB := mkDB [a2; a1; a3] [p1] [s1] [r1; r2] [u7] ∅.

Definition d_unrated : DB := mkDB [a3] [p3] [s3] [] [u7] ∅.

Definition d_tie : DB := mkDB [a2; a4] [] [] [r2] [u7] ∅.

(** A scoring format: the score is the sum of the points of the
    submissions, the cumulative time their number. *)
Definition sum_points (a : Assignment.t) (virtual real_start : Z)
    (subs : list AssignmentSubmission.t) : Q * N * option string :=
  (List.fold_right (fun s acc => Qred (AssignmentSubmission.points s + acc)) (0 # 1) subs,
   N.of_nat (length subs), None).

(** A rating engine: it writes one rating row for the assignment. *)
Definition one_row (a : Assignment.t) (d : DB) : result DB :=
  Val (set_ratings
         (ratings d ++ [Rating.mk 7 (Assignment.pk a) 0 1 1300 400
                          (default 0 (Assignment.end_time a))]) d).

Definition always_valid (name : string) (config : option string) : result unit :=
  Val tt.

Definition index_label (a : Assignment.t) (i : Z) : outcome :=
  Returned (PyStr "1").

(** Worlds: no failure; a failure at the fourth statement; the two
    assignments that end together. *)
Definition w0 : World := mkWorld d0 None [].


Definition w_tie : World := mkWorld d_tie None [].

End Sample.

From stdpp Require strings.

(** ** The colour of a tag

    [AssignmentTag.text_color]: black or white text for a tag, chosen by the
    brightness of its colour.  A string is a list of characters, each a code
    point below 256. *)
Module AssignmentTag.

(** The exceptions of this computation. *)
Inductive error : Type :=
| ValueError (msg : string)
| TypeError (msg : string).

Definition res (A : Type) : Type := (A + error)%type.

(** Value of a hexadecimal digit. *)
Definition hex_value (c : Ascii.ascii) : option N :=
  let n := Ascii.N_of_ascii c in
  if (48 <=? n)%N && (n <=? 57)%N then Some (n - 48)%N
  else if (97 <=? n)%N && (n <=? 102)%N then Some (n - 87)%N
  else if (65 <=? n)%N && (n <=? 70)%N then Some (n - 55)%N
  else None.

(** ASCII whitespace: space, tab, line feed, vertical tab, form feed,
    carriage return. *)
Definition is_space (c : Ascii.ascii) : bool :=
  let n := Ascii.N_of_ascii c in
  (n =? 32)%N || ((9 <=? n)%N && (n <=? 13)%N).

(** [bytes.fromhex]: pairs of hexadecimal digits, with whitespace allowed
    between the pairs. *)
Fixpoint fromhex (s : string) : res (list N) :=
  match s with
  | EmptyString => inl []
  | String c s1 =>
      if is_space c then fromhex s1
      else
        match hex_value c with
        | None => inr (ValueError "non-hexadecimal number found in fromhex() arg")
        | Some top =>
            match s1 with
            | EmptyString =>
                inr (ValueError
                       "fromhex() arg must contain an even number of hexadecimal digits")
            | String c2 s2 =>
                match hex_value c2 with
                | None => inr (ValueError "non-hexadecimal number found in fromhex() arg")
                | Some bot =>
                    match fromhex s2 with
                    | inl bs => inl ((16 * top + bot)%N :: bs)
                    | inr e => inr e
                    end
                end
            end
        end
  end.

(** [ord] of a [bytes] object: its single byte. *)
Definition ord (bs : list N) : res N :=
  match bs with
  | [b] => inl b
  | _ => inr (TypeError "ord() expected a character")
  end.

(** [self.color[1:]]. *)
Definition tail (s : string) : string :=
  match s with
  | EmptyString => EmptyString
  | String _ s1 => s1
  end.

(** [[ord(bytes.fromhex(i * 2)) for i in s]]. *)
Fixpoint doubled_digits (s : string) : res (list N) :=
  match s with
  | EmptyString => inl []
  | String i s1 =>
      match fromhex (String i (String i EmptyString)) with
      | inr e => inr e
      | inl bs =>
          match ord bs with
          | inr e => inr e
          | inl v =>
              match doubled_digits s1 with
              | inl vs => inl (v :: vs)
              | inr e => inr e
              end
          end
      end
  end.

(** [r, g, b = ...]: the unpacking of a sequence of exactly three values. *)
Definition unpack3 (l : list N) : res (N * N * N) :=
  match l with
  | [r; g; b] => inl (r, g, b)
  | _ => inr (ValueError "wrong number of values to unpack")
  end.

(** The components of the colour: the three-digit form when the string has
    four characters, the six-digit form otherwise. *)
Definition components (color : string) : res (N * N * N) :=
  match (if (String.length color =? 4)%nat
         then doubled_digits (tail color)
         else fromhex (tail color)) with
  | inl l => unpack3 l
  | inr e => inr e
  end.

Definition contrast (rgb : N * N * N) : string :=
  let '(r, g, b) := rgb in
  if (140000 <? 299 * r + 587 * g + 144 * b)%N then "#000" else "#fff".

(** The [text_color] property with its cache, the dictionary that is the
    default value of the parameter and so is shared by all the tags. *)
Definition text_color (color : string) (cache : gmap string string)
  : res string * gmap string string :=
  match cache !! color with
  | Some v => (inl v, cache)
  | None =>
      match components color with
      | inl rgb => (inl (contrast rgb), <[color := contrast rgb]> cache)
      | inr e => (inr e, cache)
      end
  end.

(** A string of hexadecimal digits only. *)
Fixpoint all_hex (s : string) : bool :=
  match s with
  | EmptyString => true
  | String c s1 => negb (is_none (hex_value c)) && all_hex s1
  end.

End AssignmentTag.

(** ** Users *)

(** A user of the site as the models see it: anonymous, or authenticated
    with its permissions, its profile and the organizations of the profile.
    An anonymous user has no permission. *)
Inductive User : Type :=
| AnonymousUser
| AuthenticatedUser (perms : string -> bool) (profile : Profile.t)
    (organizations : gset Z).

Definition is_authenticated (user : User) : bool :=
  match user with
  | AnonymousUser => false
  | AuthenticatedUser _ _ _ => true
  end.

Definition has_perm (user : User) (perm : string) : bool :=
  match user with
  | AnonymousUser => false
  | AuthenticatedUser perms _ _ => perms perm
  end.

(** ** The window and the scoreboard of an assignment *)

(** The attributes of an [Assignment] that decide who may see it, with its
    many-to-many relations as sets of profile and organization ids. *)
Module AssignmentAccess.

Record t : Type := mk {
  is_visible : bool;
  is_private : bool;
  is_organization_private : bool;
  scoreboard_visibility : string;
  authors : gset Z;
  curators : gset Z;
  testers : gset Z;
  view_assignment_scoreboard : gset Z;
  private_assignmentants : gset Z;
  organizations : gset Z
}.

Definition SCOREBOARD_VISIBLE : string := "V".
Definition SCOREBOARD_AFTER_CONTEST : string := "C".
Definition SCOREBOARD_AFTER_PARTICIPATION : string := "P".

(** [editor_ids]: the authors and the curators; [tester_ids]. *)
Definition editor_ids (self : t) : gset Z := authors self ∪ curators self.
Definition tester_ids (self : t) : gset Z := testers self.

End AssignmentAccess.

(** Comparison of two attributes that must both be datetimes. *)
Definition datetime_le (a : option Z) (b : Z) : result bool :=
  match a with
  | Some x => Val (x <=? b)
  | None => Raise (TypeError "'<=' not supported between instances")
  end.

Definition datetime_lt (a : option Z) (b : Z) : result bool :=
  match a with
  | Some x => Val (x <? b)
  | None => Raise (TypeError "'<' not supported between instances")
  end.

(** [Assignment.assignment_window_length]. *)
Definition assignment_window_length (self : Assignment.t) : result Z :=
  AssignmentParticipation.datetime_sub (Assignment.end_time self)
                                       (Assignment.start_time self).

(** [Assignment.can_join], at the sampled [now]. *)
Definition can_join (self : Assignment.t) (now : Z) : result bool :=
  datetime_le (Assignment.start_time self) now.

(** [Assignment.time_before_start] and [Assignment.time_before_end]. *)
Definition time_before_start (self : Assignment.t) (now : Z) : result (option Z) :=
  match Assignment.start_time self with
  | Some s => if now <=? s then Val (Some (s - now)) else Val None
  | None => Raise (TypeError "'>=' not supported between instances")
  end.

Definition time_before_end (self : Assignment.t) (now : Z) : result (option Z) :=
  match Assignment.end_time self with
  | Some e => if now <=? e then Val (Some (e - now)) else Val None
  | None => Raise (TypeError "'>=' not supported between instances")
  end.

(** [Assignment.ended]. *)
Definition assignment_ended (self : Assignment.t) (now : Z) : result bool :=
  datetime_lt (Assignment.end_time self) now.

(** [Assignment.show_scoreboard]. *)
Definition show_scoreboard (self : Assignment.t) (acl : AssignmentAccess.t)
    (now : Z) : result bool :=
  match can_join self now with
  | Raise e => Raise e
  | Val false => Val false
  | Val true =>
      if String.eqb (AssignmentAccess.scoreboard_visibility acl)
                    AssignmentAccess.SCOREBOARD_AFTER_CONTEST
         || String.eqb (AssignmentAccess.scoreboard_visibility acl)
                       AssignmentAccess.SCOREBOARD_AFTER_PARTICIPATION
      then
        match assignment_ended self now with
        | Raise e => Raise e
        | Val true => Val true
        | Val false => Val false
        end
      else Val true
  end.

(** The participation a foreign key points to; a key with no row raises
    [DoesNotExist]. *)
Definition participation_of (d : DB) (id : Z) : result AssignmentParticipation.t :=
  match List.find (fun p => AssignmentParticipation.pk p =? id) (participations d) with
  | Some p => Val p
  | None => Raise (Exception_ "AssignmentParticipation matching query does not exist.")
  end.

(** [Assignment.is_in_assignment]. *)
Definition is_in_assignment (self : Assignment.t) (user : User) (d : DB)
  : result bool :=
  match user with
  | AnonymousUser => Val false
  | AuthenticatedUser _ profile _ =>
      match Profile.current_assignment profile with
      | None => Val false
      | Some c =>
          match participation_of d c with
          | Val p => Val (AssignmentParticipation.assignment p =? Assignment.pk self)
          | Raise e => Raise e
          end
      end
  end.

(** [.first()] on a queryset with no ordering: the row of least primary
    key, or [None]. *)
Fixpoint first_by_pk (l : list AssignmentParticipation.t)
  : option AssignmentParticipation.t :=
  match l with
  | [] => None
  | p :: l' =>
      match first_by_pk l' with
      | None => Some p
      | Some q =>
          if AssignmentParticipation.pk p <=? AssignmentParticipation.pk q
          then Some p else Some q
      end
  end.

(** [self.users.filter(virtual=LIVE, user=profile)]. *)
Definition live_participations (self : Assignment.t) (profile : Profile.t) (d : DB)
  : list AssignmentParticipation.t :=
  List.filter
    (fun p => (AssignmentParticipation.assignment p =? Assignment.pk self)
              && (AssignmentParticipation.virtual p =? AssignmentParticipation.LIVE)
              && (AssignmentParticipation.user p =? Profile.pk profile))
    (participations d).

(** [Assignment.has_completed_assignment]; the participation found is one
    of this assignment, and it samples its own [_now], here [now_p]. *)
Definition has_completed_assignment (self : Assignment.t) (user : User) (d : DB)
    (now_p : Z) : result bool :=
  match user with
  | AnonymousUser => Val false
  | AuthenticatedUser _ profile _ =>
      match first_by_pk (live_participations self profile d) with
      | None => Val false
      | Some p =>
          match AssignmentParticipation.ended self p now_p with
          | Raise e => Raise e
          | Val true => Val true
          | Val false => Val false
          end
      end
  end.

(** [Assignment.can_see_full_scoreboard]. *)
Definition can_see_full_scoreboard (self : Assignment.t) (acl : AssignmentAccess.t)
    (user : User) (d : DB) (now now_p : Z) : result bool :=
  match show_scoreboard self acl now with
  | Raise e => Raise e
  | Val true => Val true
  | Val false =>
      match user with
      | AnonymousUser => Val false
      | AuthenticatedUser perms profile _ =>
          if perms "judge.see_private_assignment"%string || perms "judge.edit_all_assignment"%string
          then Val true
          else if bool_decide (Profile.pk profile ∈ AssignmentAccess.editor_ids acl)
          then Val true
          else if bool_decide
                    (Profile.pk profile ∈ AssignmentAccess.view_assignment_scoreboard acl)
          then Val true
          else if String.eqb (AssignmentAccess.scoreboard_visibility acl)
                             AssignmentAccess.SCOREBOARD_AFTER_PARTICIPATION
          then
            match has_completed_assignment self user d now_p with
            | Raise e => Raise e
            | Val true => Val true
            | Val false => Val false
            end
          else Val false
      end
  end.

(** [Assignment.can_see_own_scoreboard]. *)
Definition can_see_own_scoreboard (self : Assignment.t) (acl : AssignmentAccess.t)
    (user : User) (d : DB) (now now_p : Z) : result bool :=
  match can_see_full_scoreboard self acl user d now now_p with
  | Raise e => Raise e
  | Val true => Val true
  | Val false =>
      match can_join self now with
      | Raise e => Raise e
      | Val false => Val false
      | Val true =>
          match show_scoreboard self acl now with
          | Raise e => Raise e
          | Val true => Val true
          | Val false =>
              match is_in_assignment self user d with
              | Raise e => Raise e
              | Val false => Val false
              | Val true => Val true
              end
          end
      end
  end.

(** ** Access to an assignment *)

(** How [access_check] ends: it returns, or raises one of the two
    exceptions of the model. *)
Inductive access : Type :=
| Granted
| Inaccessible
| PrivateAssignment.

(** [organizations.filter(id__in=profile.organizations.all()).exists()]. *)
Definition in_org (acl : AssignmentAccess.t) (orgs : gset Z) : bool :=
  bool_decide (AssignmentAccess.organizations acl ∩ orgs ≠ ∅).

(** [Assignment.access_check]. *)
Definition access_check (acl : AssignmentAccess.t) (user : User) : access :=
  match user with
  | AnonymousUser =>
      if negb (AssignmentAccess.is_visible acl) then Inaccessible
      else if AssignmentAccess.is_private acl
              || AssignmentAccess.is_organization_private acl
      then PrivateAssignment
      else Granted
  | AuthenticatedUser perms profile orgs =>
      if perms "judge.see_private_assignment"%string || perms "judge.edit_all_assignment"%string
      then Granted
      else if bool_decide (Profile.pk profile ∈ AssignmentAccess.editor_ids acl)
      then Granted
      else if bool_decide (Profile.pk profile ∈ AssignmentAccess.tester_ids acl)
      then Granted
      else if negb (AssignmentAccess.is_visible acl) then Inaccessible
      else if negb (AssignmentAccess.is_private acl)
              && negb (AssignmentAccess.is_organization_private acl)
      then Granted
      else if bool_decide
                (Profile.pk profile ∈ AssignmentAccess.view_assignment_scoreboard acl)
      then Granted
      else
        let in_users :=
          bool_decide (Profile.pk profile ∈ AssignmentAccess.private_assignmentants acl) in
        if negb (AssignmentAccess.is_private acl)
           && AssignmentAccess.is_organization_private acl
        then (if in_org acl orgs then Granted else PrivateAssignment)
        else if AssignmentAccess.is_private acl
                && negb (AssignmentAccess.is_organization_private acl)
        then (if in_users then Granted else PrivateAssignment)
        else if AssignmentAccess.is_private acl
                && AssignmentAccess.is_organization_private acl
        then (if in_org acl orgs && in_users then Granted else PrivateAssignment)
        else Granted
  end.

(** [Assignment.is_accessible_by]. *)
Definition is_accessible_by (acl : AssignmentAccess.t) (user : User) : bool :=
  match access_check acl user with
  | Granted => true
  | Inaccessible | PrivateAssignment => false
  end.

(** [Assignment.is_editable_by]. *)
Definition is_editable_by (acl : AssignmentAccess.t) (user : User) : bool :=
  if has_perm user "judge.edit_all_assignment" then true
  else
    match user with
    | AuthenticatedUser perms profile _ =>
        if perms "judge.edit_own_assignment"%string
           && bool_decide (Profile.pk profile ∈ AssignmentAccess.editor_ids acl)
        then true else false
    | AnonymousUser => false
    end.

(** The condition [q] that [get_visible_assignments] builds for a user
    without the two permissions, read on one row. *)
Definition visible_q (acl : AssignmentAccess.t) (profile : Profile.t)
    (orgs : gset Z) : bool :=
  let me := Profile.pk profile in
  let org := AssignmentAccess.is_organization_private acl in
  let priv := AssignmentAccess.is_private acl in
  let users := bool_decide (me ∈ AssignmentAccess.private_assignmentants acl) in
  (AssignmentAccess.is_visible acl
   && (bool_decide (me ∈ AssignmentAccess.view_assignment_scoreboard acl)
       || (negb org && negb priv)
       || (negb org && priv && users)
       || (org && negb priv && in_org acl orgs)
       || (org && priv && in_org acl orgs && users)))
  || bool_decide (me ∈ AssignmentAccess.authors acl)
  || bool_decide (me ∈ AssignmentAccess.curators acl)
  || bool_decide (me ∈ AssignmentAccess.testers acl).

(** [Assignment.get_visible_assignments], over the rows of the table. *)
Definition get_visible_assignments (user : User)
    (rows : list (Assignment.t * AssignmentAccess.t))
  : list (Assignment.t * AssignmentAccess.t) :=
  match user with
  | AnonymousUser =>
      List.filter
        (fun row => AssignmentAccess.is_visible (snd row)
                    && negb (AssignmentAccess.is_organization_private (snd row))
                    && negb (AssignmentAccess.is_private (snd row)))
        rows
  | AuthenticatedUser perms profile orgs =>
      if negb (perms "judge.see_private_assignment"%string
               || perms "judge.edit_all_assignment"%string)
      then List.filter (fun row => visible_q (snd row) profile orgs) rows
      else rows
  end.

(** ** Saving an assignment *)

Definition set_assignments (rows : list Assignment.t) (d : DB) : DB :=
  mkDB rows (participations d) (submissions d) (ratings d) (profiles d)
       (banned_users d).

(** [self.save()] on an assignment: the row with this primary key is
    overwritten, or the row is inserted when there is none.  Saving runs no
    validation: [clean] is not called. *)
Definition Assignment_save (self : Assignment.t) (d : DB) : result DB :=
  if existsb (fun r => Assignment.pk r =? Assignment.pk self) (assignments d) then
    Val (set_assignments
           (List.map (fun r => if Assignment.pk r =? Assignment.pk self then self else r)
                     (assignments d)) d)
  else Val (set_assignments (assignments d ++ [self]) d).

(** [self.users.filter(virtual=0).count()]. *)
Definition live_count (self : Assignment.t) (d : DB) : Z :=
  Z.of_nat
    (length
       (List.filter
          (fun p => (AssignmentParticipation.assignment p =? Assignment.pk self)
                    && (AssignmentParticipation.virtual p =? 0))
          (participations d))).

(** [Assignment.update_user_count]; the result is the assignment object as
    the call leaves it. *)
Definition update_user_count (self : Assignment.t) : M Assignment.t :=
  n <- query (live_count self) ;;
  let self' := Assignment.set_user_count n self in
  execute (Assignment_save self') >> ret self'.

(** ** More sample data

    Access attributes of an open assignment, of one whose scoreboard is
    hidden until the assignment ends, and of one written by profile 1;
    a user without privileges, an editor, and a user who is currently in the
    participation 13. *)
Module Fixtures.

Definition acl_open : AssignmentAccess.t :=
  AssignmentAccess.mk true false false "V" ∅ ∅ ∅ ∅ ∅ ∅.

Definition acl_hidden : AssignmentAccess.t :=
  AssignmentAccess.mk true false false "C" ∅ ∅ ∅ ∅ ∅ ∅.

Definition acl_authored : AssignmentAccess.t :=
  AssignmentAccess.mk false true true "P" {[ 1 ]} ∅ ∅ ∅ ∅ ∅.

Definition no_perms (perm : string) : bool := false.

Definition edit_own (perm : string) : bool :=
  String.eqb perm "judge.edit_own_assignment".

Definition ordinary : User := AuthenticatedUser no_perms Sample.u7 ∅.

Definition editor : User := AuthenticatedUser edit_own (Profile.mk 1 None) ∅.

Definition u_current : Profile.t := Profile.mk 7 (Some 13).

Definition d_current : DB :=
  mkDB [Sample.a3] [Sample.p3] [Sample.s3] [] [u_current] ∅.

Definition w_current : World := mkWorld d_current None [].

Definition w_unrated : World := mkWorld Sample.d_unrated None [].

End Fixtures.

(** ** The methods of the models *)

Section Methods.

(** The collaborators that are not part of this module: the validation of
    a format's configuration ([assignment_format.formats[name].validate]),
    the evaluation of [get_label_for_problem(i)] (the label script or the
    format's own labels), the scoring rules of the format and the rating
    engine ([judge.ratings.rate_assignment]). *)
Variable format_validate : string -> option string -> result unit.
Variable label_for_problem : Assignment.t -> Z -> outcome.
Variable format_results :
  Assignment.t -> Z -> Z -> list AssignmentSubmission.t -> Q * N * option string.
Variable rate_assignment : Assignment.t -> DB -> result DB.

(** The statements of [Assignment.clean] after the check of the window:
    the validation of the format configuration and the trial of the label
    function on index 0. *)
Definition check_format_and_label (self : Assignment.t) : result unit :=
  match format_validate (Assignment.format_name self)
                        (Assignment.format_config self) with
  | Raise e => Raise e
  | Val _ =>
      match label_for_problem self 0 with
      | Raised msg =>
          Raise (ValidationError
                   (String.append "Assignment problem label script: " msg))
      | Returned label =>
          if isinstance_str label then Val tt
          else Raise (ValidationError
                        "Assignment problem label script: script should return a string.")
      end
  end.

(** [Assignment.clean]. *)
Definition clean (self : Assignment.t) : result unit :=
  if starts_after_end self then Raise invalid_window
  else check_format_and_label self.

(** One call of the rating engine, logged. *)
Definition call_rate_assignment (a : Assignment.t) : M unit :=
  tick >> fun w =>
    let w1 := mkWorld (db w) (fuse w) (calls w ++ [Assignment.pk a]) in
    match rate_assignment a (db w) with
    | Val d => (Val tt, set_db d w1)
    | Raise e => (Raise e, w1)
    end.

(** The loop of [Assignment.rate]: the queryset is evaluated when the
    iteration starts. *)
Definition rate_loop (self : Assignment.t) (now : Z) : M unit :=
  qs <- query (rated_in_range_ordered (Assignment.end_time self) now) ;;
  for_each qs call_rate_assignment.

(** [Assignment.rate]. *)
Definition rate (self : Assignment.t) (now : Z) : M unit :=
  atomic (
    execute (Rating_delete_range (Assignment.end_time self) now) >>
    rate_loop self now).

(** The rating engine folded over a list of assignments, each call
    starting from the database the call before it left. *)
Fixpoint run_engine (l : list Assignment.t) (d : DB) : result DB :=
  match l with
  | [] => Val d
  | a :: l' =>
      match rate_assignment a d with
      | Val d' => run_engine l' d'
      | Raise e => Raise e
      end
  end.

(** Modelled from the spec: [update_participation] of the scoring format
    (the [assignment_format] package is not part of this module).  It reads
    the submission rows of the participation, recomputes score, cumulative
    time and format data by the rules of the format, writes them on the
    participation and saves it. *)
Definition update_participation (assignment : Assignment.t)
    (self : AssignmentParticipation.t) : M AssignmentParticipation.t :=
  subs <- query (submissions_of self) ;;
  let self' :=
    with_results
      (format_results assignment (AssignmentParticipation.virtual self)
                      (AssignmentParticipation.real_start self) subs)
      self in
  execute (Participation_save self') >> ret self'.

(** What the format computes for a participation from the submissions
    stored in [d]: its natural score, cumulative time and format data. *)
Definition natural_results (assignment : Assignment.t)
    (self : AssignmentParticipation.t) (d : DB) : Q * N * option string :=
  format_results assignment (AssignmentParticipation.virtual self)
                 (AssignmentParticipation.real_start self) (submissions_of self d).

(** [AssignmentParticipation.recompute_results]; [assignment] is the
    related object [self.assignment].  The participation object is mutated
    in place: the result is its state on return. *)
Definition recompute_results (assignment : Assignment.t)
    (self : AssignmentParticipation.t) : M AssignmentParticipation.t :=
  atomic (
    self1 <- update_participation assignment self ;;
    if AssignmentParticipation.is_disqualified self1 then
      let self2 := AssignmentParticipation.set_score DISQUALIFIED_SCORE self1 in
      execute (Participation_save_score self2) >> ret self2
    else ret self1).

(** Modelled from the spec: [Profile.remove_assignment] (the profile model
    is not part of this module) clears the pointer to the user's current
    assignment and saves the profile. *)
Definition remove_assignment (user : Profile.t) : M unit :=
  execute (Profile_save (Profile.set_current_assignment None user)).

(** [user.current_assignment == self]: model instances are equal when
    their primary keys are. *)
Definition is_current (user : Profile.t) (self : AssignmentParticipation.t) : bool :=
  match Profile.current_assignment user with
  | Some c => c =? AssignmentParticipation.pk self
  | None => false
  end.

(** The three statements that follow [recompute_results] in
    [set_disqualified]. *)
Definition rerate_if_rated (assignment : Assignment.t) (now : Z) : M unit :=
  has <- (if Assignment.is_rated assignment
          then query (ratings_exists assignment) else ret false) ;;
  if has then rate assignment now else ret tt.

Definition leave_if_current (user : Profile.t)
    (self : AssignmentParticipation.t) : M unit :=
  if is_current user self then remove_assignment user else ret tt.

(** [AssignmentParticipation.set_disqualified]; [assignment] and [user]
    are the related objects [self.assignment] and [self.user], [now] the
    instant the assignment's [_now] samples. *)
Definition set_disqualified (assignment : Assignment.t) (user : Profile.t)
    (self : AssignmentParticipation.t) (disqualified : bool) (now : Z)
  : M AssignmentParticipation.t :=
  let self0 := AssignmentParticipation.set_is_disqualified disqualified self in
  self1 <- recompute_results assignment self0 ;;
  rerate_if_rated assignment now >>
  (if AssignmentParticipation.is_disqualified self1 then
     leave_if_current user self1 >>
     execute (banned_users_add assignment user)
   else execute (banned_users_remove assignment user)) >>
  ret self1.

(** ** Reasoning about operations *)

Lemma bind_val {A B : Type} (m : M A) (k : A -> M B) w b w' :
  bind m k w = (Val b, w') ->
  exists a w1, m w = (Val a, w1) /\ k a w1 = (Val b, w').
Proof.
  unfold bind. destruct (m w) as [[a | e] w1]; intros H.
  - exists a, w1. split; [reflexivity | exact H].
  - discriminate H.
Qed.

Lemma bind_raise {A B : Type} (m : M A) (k : A -> M B) w e w' :
  bind m k w = (Raise e, w') ->
  m w = (Raise e, w') \/
  exists a w1, m w = (Val a, w1) /\ k a w1 = (Raise e, w').
Proof.
  unfold bind. destruct (m w) as [[a | e0] w1]; intros H.
  - right. exists a, w1. split; [reflexivity | exact H].
  - left. inversion H; reflexivity.
Qed.

Lemma tick_val w u w1 :
  tick w = (Val u, w1) ->
  db w1 = db w /\ calls w1 = calls w /\ fuse w <> Some O.
Proof.
  unfold tick. destruct w as [d [[| n] |] c]; simpl; intros H;
    inversion H; subst; simpl; repeat split; congruence.
Qed.

Lemma tick_raise w e w1 : tick w = (Raise e, w1) -> w1 = w.
Proof.
  unfold tick. destruct (fuse w) as [[| n] |]; intros H; inversion H; reflexivity.
Qed.

Lemma tick_no_fuse w : fuse w = None -> tick w = (Val tt, w).
Proof. unfold tick. intros ->. reflexivity. Qed.

Lemma query_val {A : Type} (f : DB -> A) w a w' :
  query f w = (Val a, w') ->
  a = f (db w) /\ db w' = db w /\ calls w' = calls w.
Proof.
  unfold query. intros H. apply bind_val in H as (u & w1 & Ht & Hk).
  apply tick_val in Ht as (Hd & Hc & _). inversion Hk; subst.
  rewrite Hd. auto.
Qed.

Lemma query_raise {A : Type} (f : DB -> A) w e w' :
  query f w = (Raise e, w') -> w' = w.
Proof.
  unfold query. intros H. apply bind_raise in H as [H | (u & w1 & _ & H)].
  - eapply tick_raise, H.
  - discriminate H.
Qed.

Lemma execute_val (f : DB -> result DB) w w' :
  execute f w = (Val tt, w') ->
  f (db w) = Val (db w') /\ calls w' = calls w /\ fuse w <> Some O.
Proof.
  unfold execute. intros H. apply bind_val in H as (u & w1 & Ht & Hk).
  apply tick_val in Ht as (Hd & Hc & Hf). rewrite Hd in Hk.
  destruct (f (db w)) as [d | e]; inversion Hk; subst. simpl. auto.
Qed.

Lemma execute_raise (f : DB -> result DB) w e w' :
  execute f w = (Raise e, w') -> db w' = db w.
Proof.
  unfold execute. intros H. apply bind_raise in H as [H | (u & w1 & Ht & H)].
  - apply tick_raise in H. congruence.
  - apply tick_val in Ht as (Hd & _). destruct (f (db w1)); inversion H; subst.
    exact Hd.
Qed.

Lemma atomic_val {A : Type} (m : M A) w a w' :
  atomic m w = (Val a, w') -> m w = (Val a, w').
Proof.
  unfold atomic, rollback. destruct (m w) as [[a0 | e] w1]; intros H;
    inversion H; reflexivity.
Qed.

Lemma atomic_raise {A : Type} (m : M A) w e w' :
  atomic m w = (Raise e, w') -> db w' = db w.
Proof.
  unfold atomic, rollback. destruct (m w) as [[a0 | e0] w1]; intros H;
    inversion H; reflexivity.
Qed.

(** ** Validation of an assignment *)

Lemma Assignment_save_In (self : Assignment.t) (d : DB) :
  exists d', Assignment_save self d = Val d' /\ In self (assignments d').
Proof.
  unfold Assignment_save.
  destruct (existsb (fun r => Assignment.pk r =? Assignment.pk self) (assignments d))
    eqn:Hex; eexists; (split; [reflexivity |]); simpl.
  - apply existsb_exists in Hex as (r & Hin & Hk).
    apply in_map_iff. exists r. rewrite Hk. auto.
  - apply in_or_app. right. left. reflexivity.
Qed.

(** C9 (amended).  When both ends of the window are present and the start
    is not before the end, [clean] raises the invalid-window error, so an
    assignment that passes [clean] has its start strictly before its end.
    Saving does not go through [clean]: [update_user_count] stores the
    assignment with the window it has, inverted or not. *)
Theorem clean_rejects_inverted_window (self : Assignment.t) (s e : Z) :
  Assignment.start_time self = Some s ->
  Assignment.end_time self = Some e ->
  (e <= s -> clean self = Raise invalid_window) /\
  (clean self = Val tt -> s < e) /\
  (forall w, fuse w = None ->
             exists self' w',
               update_user_count self w = (Val self', w') /\
               In self' (assignments (db w')) /\
               Assignment.pk self' = Assignment.pk self /\
               Assignment.start_time self' = Some s /\
               Assignment.end_time self' = Some e).
Proof.
  intros Hs He. split; [| split].
  - intros Hle. unfold clean, starts_after_end. rewrite Hs, He.
    destruct (Z.leb_spec e s); [reflexivity | lia].
  - unfold clean, starts_after_end. rewrite Hs, He.
    destruct (Z.leb_spec e s) as [Hle | Hlt]; [discriminate | intros _; exact Hlt].
  - intros w Hf. unfold update_user_count, query, execute, bind.
    rewrite (tick_no_fuse w Hf). cbv beta iota. rewrite (tick_no_fuse w Hf).
    cbv beta iota.
    destruct (Assignment_save_In
                (Assignment.set_user_count (live_count self (db w)) self) (db w))
      as (d' & -> & Hin).
    eexists _, _. split; [reflexivity |]. split; [exact Hin |].
    cbn. auto.
Qed.

(** C10.  When the start or the end of the window is missing, the
    comparison of the two is not evaluated as true: [clean] raises no
    invalid-window error of its own and goes on to the two checks, whose
    outcome is its result.  An exception of the format's validation goes
    through as it is; with a valid configuration, an exception raised while
    the label of index 0 is computed becomes a [ValidationError] carrying
    its text, a label that is not a string is rejected, and a label that is
    a string lets [clean] return. *)
Theorem clean_without_window_runs_checks (self : Assignment.t) :
  Assignment.start_time self = None \/ Assignment.end_time self = None ->
  starts_after_end self = false /\
  clean self = check_format_and_label self /\
  (forall label,
      format_validate (Assignment.format_name self)
                      (Assignment.format_config self) = Val tt ->
      label_for_problem self 0 = Returned (PyStr label) ->
      clean self = Val tt) /\
  (forall e,
      format_validate (Assignment.format_name self)
                      (Assignment.format_config self) = Raise e ->
      clean self = Raise e) /\
  (forall msg,
      format_validate (Assignment.format_name self)
                      (Assignment.format_config self) = Val tt ->
      label_for_problem self 0 = Raised msg ->
      clean self
      = Raise (ValidationError
                 (String.append "Assignment problem label script: " msg))) /\
  (format_validate (Assignment.format_name self)
                   (Assignment.format_config self) = Val tt ->
   label_for_problem self 0 = Returned PyOther ->
   clean self
   = Raise (ValidationError
              "Assignment problem label script: script should return a string.")).
Proof.
  intros Hmiss.
  assert (Hw : starts_after_end self = false).
  { unfold starts_after_end. destruct Hmiss as [-> | ->].
    - reflexivity.
    - destruct (Assignment.start_time self); reflexivity. }
  split; [exact Hw |]. unfold clean. rewrite Hw. split; [reflexivity |].
  unfold check_format_and_label. repeat split.
  - intros label Hv Hl. rewrite Hv, Hl. reflexivity.
  - intros e Hv. rewrite Hv. reflexivity.
  - intros msg Hv Hl. rewrite Hv, Hl. reflexivity.
  - intros Hv Hl. rewrite Hv, Hl. reflexivity.
Qed.

(** ** The participation aggregator *)

Lemma with_results_flag r self :
  AssignmentParticipation.is_disqualified (with_results r self)
  = AssignmentParticipation.is_disqualified self.
Proof. reflexivity. Qed.

Lemma with_results_pk r self :
  AssignmentParticipation.pk (with_results r self) = AssignmentParticipation.pk self.
Proof. reflexivity. Qed.

Lemma with_results_absorbs r x self :
  with_results r (AssignmentParticipation.set_score x (with_results r self))
  = with_results r self.
Proof. reflexivity. Qed.

Lemma with_results_idem r self :
  with_results r (with_results r self) = with_results r self.
Proof. reflexivity. Qed.

Lemma update_participation_val assignment self w p0 w0 :
  update_participation assignment self w = (Val p0, w0) ->
  p0 = with_results (natural_results assignment self (db w)) self /\
  Participation_save p0 (db w) = Val (db w0) /\
  calls w0 = calls w.
Proof.
  unfold update_participation. intros H.
  apply bind_val in H as (subs & w1 & Hq & H).
  apply query_val in Hq as (-> & Hd & Hc).
  apply bind_val in H as ([] & w2 & He & H).
  apply execute_val in He as (Hs & Hc2 & _).
  inversion H; subst. rewrite Hd in Hs.
  repeat split; [exact Hs | congruence].
Qed.

Lemma update_participation_raise assignment self w e w' :
  update_participation assignment self w = (Raise e, w') -> db w' = db w.
Proof.
  unfold update_participation. intros H.
  apply bind_raise in H as [H | (subs & w1 & Hq & H)].
  - apply query_raise in H. congruence.
  - apply query_val in Hq as (_ & Hd & _).
    apply bind_raise in H as [H | (u & w2 & _ & H)].
    + apply execute_raise in H. congruence.
    + discriminate H.
Qed.

(** What a returning call of [recompute_results] has done: the update by
    the format, then the override when the participation is disqualified. *)
Lemma recompute_results_inv (assignment : Assignment.t)
    (self p : AssignmentParticipation.t) (w w' : World) :
  recompute_results assignment self w = (Val p, w') ->
  exists p0 w0,
    update_participation assignment self w = (Val p0, w0) /\
    p0 = with_results (natural_results assignment self (db w)) self /\
    AssignmentParticipation.is_disqualified p
    = AssignmentParticipation.is_disqualified self /\
    if AssignmentParticipation.is_disqualified self then
      p = AssignmentParticipation.set_score DISQUALIFIED_SCORE p0 /\
      AssignmentParticipation.score p = (-9999) # 1 /\
      db w' = set_participations
                (update_row (AssignmentParticipation.pk self)
                            (AssignmentParticipation.set_score DISQUALIFIED_SCORE)
                            (participations (db w0)))
                (db w0)
    else
      p = p0 /\
      AssignmentParticipation.score p
      = fst (fst (natural_results assignment self (db w))) /\
      db w' = db w0.
Proof.
  unfold recompute_results. intros H. apply atomic_val in H.
  apply bind_val in H as (p0 & w0 & Hu & H).
  exists p0, w0. split; [exact Hu |].
  apply update_participation_val in Hu as (Hp0 & _ & _).
  split; [exact Hp0 |].
  assert (Hflag : AssignmentParticipation.is_disqualified p0
                  = AssignmentParticipation.is_disqualified self)
    by (rewrite Hp0; apply with_results_flag).
  rewrite Hflag in H.
  destruct (AssignmentParticipation.is_disqualified self) eqn:Hdq.
  - apply bind_val in H as ([] & w2 & He & H).
    apply execute_val in He as (Hs & _ & _).
    inversion H; subst p w2. split; [exact Hflag |].
    split; [reflexivity |]. split; [reflexivity |].
    unfold Participation_save_score in Hs.
    destruct (participation_exists _ (db w0)); [| discriminate Hs].
    inversion Hs as [Hdb]. rewrite Hp0. reflexivity.
  - inversion H; subst p w'. split; [exact Hflag |].
    split; [reflexivity |]. split; [| reflexivity].
    rewrite Hp0. reflexivity.
Qed.

(** *** Saving the same results twice *)

Lemma set_participations_same d : set_participations (participations d) d = d.
Proof. destruct d; reflexivity. Qed.

Lemma update_row_fixed k f rows :
  (forall r, In r rows -> AssignmentParticipation.pk r = k -> f r = r) ->
  update_row k f rows = rows.
Proof.
  intros Hfix. unfold update_row. rewrite <- (map_id rows) at 2.
  apply map_ext_in. intros r Hr.
  destruct (Z.eqb_spec (AssignmentParticipation.pk r) k) as [Hk | Hk]; auto.
Qed.

Lemma update_row_twice k f g rows :
  (forall r, AssignmentParticipation.pk (g r) = AssignmentParticipation.pk r) ->
  update_row k f (update_row k g rows) = update_row k (fun r => f (g r)) rows.
Proof.
  intros Hpk. unfold update_row. rewrite map_map. apply map_ext. intros r.
  destruct (Z.eqb_spec (AssignmentParticipation.pk r) k) as [Hk | Hk].
  - rewrite Hpk. destruct (Z.eqb_spec (AssignmentParticipation.pk r) k); congruence.
  - destruct (Z.eqb_spec (AssignmentParticipation.pk r) k); congruence.
Qed.

Lemma existsb_update_row k f rows (q : AssignmentParticipation.t -> bool) :
  (forall r, q (f r) = q r) ->
  existsb q (update_row k f rows) = existsb q rows.
Proof.
  intros Hq. unfold update_row. induction rows as [| r rows IH]; simpl.
  - reflexivity.
  - rewrite IH. destruct (AssignmentParticipation.pk r =? k); [rewrite Hq |]; reflexivity.
Qed.

Lemma Participation_save_stored p d d' :
  Participation_save p d = Val d' -> stored p d'.
Proof.
  unfold Participation_save, stored, participation_exists.
  destruct (existsb _ (participations d)) eqn:Hex; intros H; inversion H; subst d'; simpl.
  - split.
    + unfold update_row. apply existsb_exists in Hex as (r & Hr & Hk).
      apply existsb_exists. exists p. split; [| apply Z.eqb_refl].
      apply in_map_iff. exists r. rewrite Hk. auto.
    + unfold update_row. intros r Hr Hk. apply in_map_iff in Hr as (r0 & Hr0 & _).
      destruct (AssignmentParticipation.pk r0 =? AssignmentParticipation.pk p) eqn:E.
      * congruence.
      * subst r0. apply Z.eqb_neq in E. contradiction.
  - split.
    + rewrite existsb_app. simpl. rewrite Z.eqb_refl. apply orb_true_iff. right. reflexivity.
    + intros r Hr Hk. apply in_app_or in Hr as [Hr | [Hr | []]]; [| congruence].
      exfalso. assert (Hno : existsb
        (fun r0 => AssignmentParticipation.pk r0 =? AssignmentParticipation.pk p)
        (participations d) = true).
      { apply existsb_exists. exists r. split; [exact Hr |]. apply Z.eqb_eq, Hk. }
      congruence.
Qed.

Lemma Participation_save_again p d : stored p d -> Participation_save p d = Val d.
Proof.
  intros [Hex Hall]. unfold Participation_save. rewrite Hex.
  rewrite update_row_fixed; [rewrite set_participations_same; reflexivity |].
  intros r Hr Hk. symmetry. apply Hall; assumption.
Qed.

Lemma Participation_save_over_score p x d :
  stored p d ->
  Participation_save p
    (set_participations
       (update_row (AssignmentParticipation.pk p)
                   (AssignmentParticipation.set_score x) (participations d)) d)
  = Val d.
Proof.
  intros [Hex Hall]. unfold Participation_save, participation_exists in *. simpl.
  rewrite existsb_update_row by reflexivity. rewrite Hex.
  rewrite update_row_twice by reflexivity.
  rewrite update_row_fixed.
  - destruct d; reflexivity.
  - intros r Hr Hk. symmetry. apply Hall; assumption.
Qed.

Lemma natural_results_same assignment p q d d' :
  AssignmentParticipation.pk p = AssignmentParticipation.pk q ->
  AssignmentParticipation.virtual p = AssignmentParticipation.virtual q ->
  AssignmentParticipation.real_start p = AssignmentParticipation.real_start q ->
  submissions d = submissions d' ->
  natural_results assignment p d = natural_results assignment q d'.
Proof.
  intros Hk Hv Hr Hs. unfold natural_results, submissions_of.
  rewrite Hk, Hv, Hr, Hs. reflexivity.
Qed.

Lemma Participation_save_submissions p d d' :
  Participation_save p d = Val d' -> submissions d' = submissions d.
Proof.
  unfold Participation_save. destruct (participation_exists p d); intros H;
    inversion H; reflexivity.
Qed.

(** Without a failure of the persistence layer [recompute_results]
    returns. *)
Lemma recompute_results_returns assignment self w :
  fuse w = None ->
  exists p w', recompute_results assignment self w = (Val p, w') /\ fuse w' = None.
Proof.
  intros Hf. unfold recompute_results, atomic, update_participation, query, execute, bind.
  rewrite (tick_no_fuse w Hf). cbv beta iota. rewrite (tick_no_fuse w Hf). cbv beta iota.
  set (p0 := with_results _ self).
  destruct (Participation_save p0 (db w)) as [d0 | e] eqn:Hs.
  2:{ unfold Participation_save in Hs. destruct (participation_exists p0 (db w)); discriminate Hs. }
  cbv beta iota. unfold ret.
  destruct (AssignmentParticipation.is_disqualified p0) eqn:Hdq.
  - rewrite tick_no_fuse by exact Hf. cbv beta iota. simpl db.
    unfold Participation_save_score.
    apply Participation_save_stored in Hs as [Hex _].
    assert (Hex2 : participation_exists
                     (AssignmentParticipation.set_score DISQUALIFIED_SCORE p0) d0 = true)
      by exact Hex.
    rewrite Hex2. simpl. eauto.
  - simpl. eauto.
Qed.

Lemma stored_set_score p x d :
  stored p d ->
  stored (AssignmentParticipation.set_score x p)
         (set_participations
            (update_row (AssignmentParticipation.pk p)
                        (AssignmentParticipation.set_score x) (participations d)) d).
Proof.
  intros [Hex Hall]. unfold stored, participation_exists in *. simpl. split.
  - rewrite existsb_update_row by reflexivity. exact Hex.
  - unfold update_row. intros r Hr Hk. apply in_map_iff in Hr as (r0 & Hr0 & Hin).
    destruct (Z.eqb_spec (AssignmentParticipation.pk r0) (AssignmentParticipation.pk p))
      as [E | E].
    + rewrite (Hall r0 Hin E) in Hr0. congruence.
    + subst r0. contradiction.
Qed.

(** C4.  When [recompute_results] returns, the participation carries the
    cumulative time and format data the format computed from its
    submissions; if it is disqualified, its score is the sentinel -9999
    whatever the format computed, and the override has written nothing but
    the score column of its row; if it is not disqualified, its score is
    the one the format computed.  In both cases the row stored for the
    participation is the participation as returned. *)
Theorem recompute_results_score (assignment : Assignment.t)
    (self p : AssignmentParticipation.t) (w w' : World) :
  recompute_results assignment self w = (Val p, w') ->
  AssignmentParticipation.is_disqualified p
  = AssignmentParticipation.is_disqualified self /\
  AssignmentParticipation.cumtime p
  = snd (fst (natural_results assignment self (db w))) /\
  AssignmentParticipation.format_data p
  = snd (natural_results assignment self (db w)) /\
  (AssignmentParticipation.is_disqualified self = true ->
   AssignmentParticipation.score p = (-9999) # 1 /\
   exists p0 w0,
     update_participation assignment self w = (Val p0, w0) /\
     db w' = set_participations
               (update_row (AssignmentParticipation.pk self)
                           (AssignmentParticipation.set_score DISQUALIFIED_SCORE)
                           (participations (db w0)))
               (db w0)) /\
  (AssignmentParticipation.is_disqualified self = false ->
   AssignmentParticipation.score p
   = fst (fst (natural_results assignment self (db w)))) /\
  stored p (db w').
Proof.
  intros H. apply recompute_results_inv in H as (p0 & w0 & Hu & Hp0 & Hflag & H).
  pose proof (update_participation_val _ _ _ _ _ Hu) as (_ & Hsave & _).
  apply Participation_save_stored in Hsave.
  split; [exact Hflag |].
  destruct (AssignmentParticipation.is_disqualified self) eqn:Hdq.
  - destruct H as (Hp & Hscore & Hdb).
    split; [rewrite Hp, Hp0; reflexivity |].
    split; [rewrite Hp, Hp0; reflexivity |].
    split; [| split; [discriminate |]].
    + intros _. split; [exact Hscore |]. exists p0, w0. auto.
    + rewrite Hdb, Hp.
      replace (AssignmentParticipation.pk self) with (AssignmentParticipation.pk p0)
        by (rewrite Hp0; reflexivity).
      apply stored_set_score, Hsave.
  - destruct H as (Hp & Hscore & Hdb). subst p.
    split; [rewrite Hp0; reflexivity |].
    split; [rewrite Hp0; reflexivity |].
    split; [discriminate |]. split; [intros _; exact Hscore |].
    rewrite Hdb. exact Hsave.
Qed.

(** C5.  [recompute_results] is idempotent: when a call has returned, a
    second call on the same participation, with the submissions and the
    flag as the first call left them, returns the same participation (score,
    cumulative time and format data included) and leaves the database as it
    was; and without a failure of the persistence layer the second call does
    return. *)
Theorem recompute_results_idempotent (assignment : Assignment.t)
    (self p1 : AssignmentParticipation.t) (w w1 : World) :
  recompute_results assignment self w = (Val p1, w1) ->
  (forall p2 w2,
      recompute_results assignment p1 w1 = (Val p2, w2) ->
      p2 = p1 /\ db w2 = db w1) /\
  (fuse w1 = None -> recompute_results assignment p1 w1 = (Val p1, w1)).
Proof.
  intros H1.
  assert (Hsame : forall p2 w2,
             recompute_results assignment p1 w1 = (Val p2, w2) ->
             p2 = p1 /\ db w2 = db w1).
  { intros p2 w2 H2.
    apply recompute_results_inv in H1 as (p0 & w0 & Hu1 & Hp0 & Hfl1 & H1).
    apply recompute_results_inv in H2 as (q0 & v0 & Hu2 & Hq0 & Hfl2 & H2).
    apply update_participation_val in Hu1 as (_ & Hs1 & _).
    apply update_participation_val in Hu2 as (_ & Hs2 & _).
    pose proof (Participation_save_stored _ _ _ Hs1) as Hst.
    pose proof (Participation_save_submissions _ _ _ Hs1) as Hsub.
    rewrite Hfl1 in H2.
    destruct (AssignmentParticipation.is_disqualified self) eqn:Hdq.
    - destruct H1 as (Hp1 & _ & Hd1). destruct H2 as (Hp2 & _ & Hd2).
      assert (Hnat : natural_results assignment p1 (db w1)
                     = natural_results assignment self (db w)).
      { apply natural_results_same; rewrite ?Hp1, ?Hp0, ?Hd1; try reflexivity.
        simpl. exact Hsub. }
      assert (Hq : q0 = p0).
      { rewrite Hq0, Hnat, Hp1, Hp0. apply with_results_absorbs. }
      rewrite Hq, Hd1 in Hs2.
      assert (Hk : AssignmentParticipation.pk self = AssignmentParticipation.pk p0)
        by (rewrite Hp0; reflexivity).
      rewrite Hk in Hs2. rewrite Participation_save_over_score in Hs2 by exact Hst.
      inversion Hs2 as [Hv0]. split; [congruence |].
      rewrite Hd2, Hd1, <- Hv0. rewrite Hp1, Hp0. reflexivity.
    - destruct H1 as (Hp1 & _ & Hd1). destruct H2 as (Hp2 & _ & Hd2).
      assert (Hnat : natural_results assignment p1 (db w1)
                     = natural_results assignment self (db w)).
      { apply natural_results_same; rewrite ?Hp1, ?Hp0, ?Hd1; try reflexivity.
        exact Hsub. }
      assert (Hq : q0 = p0).
      { rewrite Hq0, Hnat, Hp1, Hp0. apply with_results_idem. }
      rewrite Hq, Hd1 in Hs2.
      rewrite Participation_save_again in Hs2 by exact Hst.
      inversion Hs2 as [Hv0]. split; congruence. }
  split; [exact Hsame |].
  intros Hf. destruct (recompute_results_returns assignment p1 w1 Hf)
    as (p2 & w2 & H2 & Hf2).
  destruct (Hsame p2 w2 H2) as [-> Hd]. rewrite H2. f_equal.
  assert (Hc : calls w2 = calls w1).
  { unfold recompute_results in H2. apply atomic_val in H2.
    apply bind_val in H2 as (q & v & Hu & H2).
    apply update_participation_val in Hu as (_ & _ & Hc).
    destruct (AssignmentParticipation.is_disqualified q).
    - apply bind_val in H2 as ([] & v2 & He & H2).
      apply execute_val in He as (_ & Hc2 & _). inversion H2; subst. congruence.
    - inversion H2; subst. exact Hc. }
  destruct w1, w2; simpl in *; congruence.
Qed.

(** ** The rating scheduler *)

#[local] Instance end_time_le_trans : Transitive end_time_le.
Proof.
  intros a b c. unfold end_time_le, end_time_leb.
  destruct (Assignment.end_time a), (Assignment.end_time b),
    (Assignment.end_time c); try congruence.
  rewrite !Z.leb_le. lia.
Qed.

#[local] Instance end_time_le_total : Total end_time_le.
Proof.
  intros a b. unfold end_time_le, end_time_leb.
  destruct (Assignment.end_time a), (Assignment.end_time b); auto.
  rewrite !Z.leb_le. lia.
Qed.

Lemma between_spec lo hi t : between lo hi t = true <-> lo <= t <= hi.
Proof. unfold between. rewrite andb_true_iff, !Z.leb_le. reflexivity. Qed.

Lemma end_time_range_spec lo hi a :
  end_time_range (Some lo) hi a = true <->
  exists e, Assignment.end_time a = Some e /\ lo <= e <= hi.
Proof.
  unfold end_time_range. destruct (Assignment.end_time a) as [e |].
  - rewrite between_spec. split.
    + intros H. exists e. auto.
    + intros (e' & He & H). inversion He; subst. exact H.
  - split; [discriminate | intros (e & He & _); discriminate].
Qed.

Lemma rating_in_range_spec lo hi d r :
  rating_in_range (Some lo) hi d r = true <->
  exists a e, assignment_of d (Rating.assignment r) = Some a /\
              Assignment.end_time a = Some e /\ lo <= e <= hi.
Proof.
  unfold rating_in_range. destruct (assignment_of d (Rating.assignment r)) as [a |].
  - rewrite end_time_range_spec. split.
    + intros (e & He & H). exists a, e. auto.
    + intros (a' & e & Ha & He & H). inversion Ha; subst. exists e. auto.
  - split; [discriminate | intros (a & e & Ha & _); discriminate].
Qed.

(** C1 (amended).  The first statement of [rate] deletes exactly the rating
    rows of the assignments whose end lies in the closed range from the end
    of this assignment to [now], both bounds included, and touches no other
    table; the loop then starts from the database so obtained. *)
Theorem rate_deletes_closed_range (self : Assignment.t) (now lo : Z) (w : World) :
  Assignment.end_time self = Some lo ->
  fuse w <> Some O ->
  exists w1,
    execute (Rating_delete_range (Assignment.end_time self) now) w = (Val tt, w1) /\
    rate self now w = rollback w (rate_loop self now w1) /\
    (forall r, In r (ratings (db w1)) <->
               In r (ratings (db w)) /\
               ~ exists a e, assignment_of (db w) (Rating.assignment r) = Some a /\
                             Assignment.end_time a = Some e /\ lo <= e <= now) /\
    db w1 = set_ratings (ratings (db w1)) (db w).
Proof.
  intros Hlo Hf. rewrite Hlo.
  destruct (tick w) as [[[] | e] w0] eqn:Ht.
  2:{ exfalso. unfold tick in Ht. destruct (fuse w) as [[| n] |];
      [congruence | discriminate Ht | discriminate Ht]. }
  pose proof (tick_val _ _ _ Ht) as (Hd0 & _ & _).
  set (d1 := set_ratings
               (List.filter (fun r => negb (rating_in_range (Some lo) now (db w) r))
                            (ratings (db w))) (db w)).
  exists (set_db d1 w0).
  assert (He : execute (Rating_delete_range (Some lo) now) w = (Val tt, set_db d1 w0)).
  { unfold execute, bind. rewrite Ht. unfold Rating_delete_range. rewrite Hd0.
    reflexivity. }
  split; [exact He |]. split.
  - unfold rate, atomic, bind. rewrite Hlo, He. reflexivity.
  - simpl. split; [| reflexivity].
    intros r. rewrite filter_In, negb_true_iff, <- not_true_iff_false.
    rewrite rating_in_range_spec. reflexivity.
Qed.

Lemma for_each_calls (l : list Assignment.t) w w' :
  for_each l call_rate_assignment w = (Val tt, w') ->
  calls w' = calls w ++ List.map Assignment.pk l /\
  run_engine l (db w) = Val (db w').
Proof.
  revert w. induction l as [| a l IH]; intros w H; simpl in *.
  - inversion H; subst. rewrite app_nil_r. auto.
  - apply bind_val in H as ([] & w1 & Hc & H).
    unfold call_rate_assignment in Hc.
    apply bind_val in Hc as (u & w0 & Ht & Hc).
    apply tick_val in Ht as (Hd & Hcs & _). rewrite Hd in Hc.
    destruct (rate_assignment a (db w)) as [d |]; [| discriminate Hc].
    inversion Hc; subst w1. apply IH in H as [Hcalls Hrun]. simpl in *.
    split; [| exact Hrun].
    rewrite Hcalls, Hcs, <- app_assoc. reflexivity.
Qed.

Lemma StronglySorted_ends (l : list Assignment.t) :
  StronglySorted end_time_le l ->
  Forall (fun a => exists e, Assignment.end_time a = Some e) l ->
  StronglySorted ends_no_later l.
Proof.
  induction 1 as [| a l Hs IH Hall]; intros Hsome.
  - constructor.
  - apply Forall_cons in Hsome as [(x & Hx) Hsome].
    constructor; [apply IH, Hsome |].
    rewrite Forall_forall in Hall, Hsome |- *. intros b Hb.
    destruct (Hsome b Hb) as (y & Hy). exists x, y. repeat split; auto.
    specialize (Hall b Hb). unfold end_time_le, end_time_leb in Hall.
    rewrite Hx, Hy in Hall. apply Z.leb_le, Hall.
Qed.

(** C2 (amended).  When [rate] returns, the rating engine has been called
    exactly once for each assignment that is rated and whose end lies in
    the closed range from the end of this assignment to [now]: the calls
    are a permutation of those rows of the table, in non-decreasing order
    of end.  Each call starts from the database the call before it left,
    the first one from the database after the delete. *)
Theorem rate_calls_engine_in_order (self : Assignment.t) (now lo : Z)
    (w w' : World) :
  Assignment.end_time self = Some lo ->
  rate self now w = (Val tt, w') ->
  exists d1 targets,
    Rating_delete_range (Some lo) now (db w) = Val d1 /\
    Permutation targets (rated_in_range (Some lo) now (db w)) /\
    (forall a, In a targets <->
               In a (assignments (db w)) /\ Assignment.is_rated a = true /\
               exists e, Assignment.end_time a = Some e /\ lo <= e <= now) /\
    StronglySorted ends_no_later targets /\
    calls w' = calls w ++ List.map Assignment.pk targets /\
    run_engine targets d1 = Val (db w').
Proof.
  intros Hlo H. unfold rate in H. apply atomic_val in H. rewrite Hlo in H.
  apply bind_val in H as ([] & w1 & He & H).
  apply execute_val in He as (Hdel & Hc1 & _).
  unfold rate_loop in H. apply bind_val in H as (qs & w2 & Hq & H).
  apply query_val in Hq as (Hqs & Hd2 & Hc2). rewrite Hlo in Hqs.
  apply for_each_calls in H as [Hcalls Hrun].
  assert (Hasg : assignments (db w1) = assignments (db w))
    by (unfold Rating_delete_range in Hdel; injection Hdel as Hd; rewrite <- Hd;
        reflexivity).
  assert (Hsame : rated_in_range (Some lo) now (db w1) = rated_in_range (Some lo) now (db w))
    by (unfold rated_in_range; rewrite Hasg; reflexivity).
  assert (Hperm : Permutation qs (rated_in_range (Some lo) now (db w))).
  { subst qs. unfold rated_in_range_ordered. rewrite Hsame.
    apply merge_sort_Permutation. }
  assert (Hin : forall a, In a qs <->
               In a (assignments (db w)) /\ Assignment.is_rated a = true /\
               exists e, Assignment.end_time a = Some e /\ lo <= e <= now).
  { intros a. split.
    - intros Ha. apply (Permutation_in _ Hperm) in Ha.
      unfold rated_in_range in Ha. apply filter_In in Ha as [Hin Hb].
      apply andb_true_iff in Hb as [Hr Hb]. apply end_time_range_spec in Hb. auto.
    - intros (Ha & Hr & Hb). apply (Permutation_in _ (Permutation_sym Hperm)).
      unfold rated_in_range. apply filter_In. split; [exact Ha |].
      rewrite Hr. apply end_time_range_spec in Hb. exact Hb. }
  exists (db w1), qs. split; [exact Hdel |]. split; [exact Hperm |].
  split; [exact Hin |]. split; [| split].
  - apply StronglySorted_ends.
    + subst qs. unfold rated_in_range_ordered. apply StronglySorted_merge_sort; apply _.
    + apply List.Forall_forall. intros a Ha. apply Hin in Ha as (_ & _ & e & He & _).
      exists e. exact He.
  - rewrite Hcalls, Hc2, Hc1. reflexivity.
  - rewrite <- Hd2. exact Hrun.
Qed.

(** Without a failure of the persistence layer and with an engine that
    does not raise, [rate] returns. *)
Lemma rate_returns (self : Assignment.t) (now : Z) (w : World) :
  fuse w = None ->
  (forall a d, exists d', rate_assignment a d = Val d') ->
  exists w', rate self now w = (Val tt, w').
Proof.
  intros Hf Hengine.
  assert (Hloop : forall l v, fuse v = None ->
            exists v', for_each l call_rate_assignment v = (Val tt, v')).
  { induction l as [| a l IH]; intros v Hv; simpl.
    - eexists. reflexivity.
    - unfold bind at 1. unfold call_rate_assignment, bind.
      rewrite (tick_no_fuse v Hv).
      destruct (Hengine a (db v)) as (d' & ->). apply IH. exact Hv. }
  unfold rate, atomic, rate_loop, execute, query, bind.
  rewrite (tick_no_fuse w Hf). cbv beta iota. unfold Rating_delete_range.
  cbv beta iota. rewrite tick_no_fuse by exact Hf. cbv beta iota.
  match goal with |- context [for_each ?l _ ?v] =>
    destruct (Hloop l v Hf) as (v' & ->) end.
  eexists. reflexivity.
Qed.

(** ** Failure and the units of work *)






End Methods.

(** ** The time window of a participation *)

(** A sum within the range of [datetime] is returned. *)
Lemma datetime_add_in_range (t d : Z) :
  AssignmentParticipation.DATETIME_MIN <= t + d <= AssignmentParticipation.DATETIME_MAX ->
  AssignmentParticipation.datetime_add t d = Val (t + d).
Proof.
  intros [Hlo Hhi]. unfold AssignmentParticipation.datetime_add.
  apply Z.leb_le in Hlo, Hhi. rewrite Hlo, Hhi. reflexivity.
Qed.

(** A sum that is returned is the sum, and is within the range. *)
Lemma datetime_add_val (t d r : Z) :
  AssignmentParticipation.datetime_add t d = Val r ->
  r = t + d /\
  AssignmentParticipation.DATETIME_MIN <= r <= AssignmentParticipation.DATETIME_MAX.
Proof.
  unfold AssignmentParticipation.datetime_add.
  destruct (Z.leb_spec AssignmentParticipation.DATETIME_MIN (t + d)) as [Hlo | Hlo];
    destruct (Z.leb_spec (t + d) AssignmentParticipation.DATETIME_MAX) as [Hhi | Hhi];
    cbn [andb]; intros Heq; inversion Heq; subst. auto.
Qed.

(** The end of a participation for the five cases of mode and limit; on a
    virtual participation the zero duration counts as no limit. *)
Lemma end_time_cases (a : Assignment.t) (p : AssignmentParticipation.t) (S E : Z) :
  Assignment.start_time a = Some S ->
  Assignment.end_time a = Some E ->
  AssignmentParticipation.end_time a p =
  if AssignmentParticipation.virtual p =? -1 then Val (Some E)
  else if AssignmentParticipation.virtual p =? 0 then
    match Assignment.time_limit a with
    | None => Val (Some E)
    | Some l =>
        match AssignmentParticipation.datetime_add
                (AssignmentParticipation.real_start p) l with
        | Val t => Val (Some (Z.min t E))
        | Raise e => Raise e
        end
    end
  else
    AssignmentParticipation.returned
      (AssignmentParticipation.datetime_add (AssignmentParticipation.real_start p)
         match Assignment.time_limit a with
         | None => E - S
         | Some l => if l =? 0 then E - S else l
         end).
Proof.
  intros HS HE.
  unfold AssignmentParticipation.end_time, AssignmentParticipation.spectate,
    AssignmentParticipation.int_truth, AssignmentParticipation.timedelta_truth,
    AssignmentParticipation.SPECTATE, AssignmentParticipation.returned.
  rewrite HS, HE.
  destruct (AssignmentParticipation.virtual p =? -1); [reflexivity |].
  destruct (AssignmentParticipation.virtual p =? 0); simpl.
  - destruct (Assignment.time_limit a) as [l |]; [| reflexivity].
    destruct (AssignmentParticipation.datetime_add _ l); reflexivity.
  - destruct (Assignment.time_limit a) as [l |]; [| reflexivity].
    destruct (l =? 0); reflexivity.
Qed.

(** C6 (the code at the failing input).  On a virtual participation the
    limit is tested for truth, so a limit that is set to the zero duration
    counts as no limit: the end is the sum of the real start and the length
    of the window, not the real start plus the limit; when that sum is a
    datetime it is the value returned, and otherwise the addition raises. *)
Theorem end_time_virtual_zero_limit (a : Assignment.t)
    (p : AssignmentParticipation.t) (S E : Z) :
  Assignment.start_time a = Some S ->
  Assignment.end_time a = Some E ->
  Assignment.time_limit a = Some 0 ->
  AssignmentParticipation.virtual p <> 0 ->
  AssignmentParticipation.virtual p <> -1 ->
  AssignmentParticipation.end_time a p
  = AssignmentParticipation.returned
      (AssignmentParticipation.datetime_add (AssignmentParticipation.real_start p)
                                            (E - S)) /\
  (AssignmentParticipation.DATETIME_MIN
   <= AssignmentParticipation.real_start p + (E - S)
   <= AssignmentParticipation.DATETIME_MAX ->
   AssignmentParticipation.end_time a p
   = Val (Some (AssignmentParticipation.real_start p + (E - S)))).
Proof.
  intros HS HE HL Hv0 Hv1. rewrite (end_time_cases a p S E HS HE), HL.
  apply Z.eqb_neq in Hv0, Hv1. rewrite Hv0, Hv1. cbn [Z.eqb].
  split; [reflexivity |].
  intros Hrange. rewrite (datetime_add_in_range _ _ Hrange). reflexivity.
Qed.

(** C7.  The start of a participation is the start of the assignment when
    the assignment has no time limit and the participation is live or
    spectating, and the participation's own real start in every other
    case. *)
Theorem start_cases (a : Assignment.t) (p : AssignmentParticipation.t) :
  (Assignment.time_limit a = None /\
   (AssignmentParticipation.virtual p = 0 \/ AssignmentParticipation.virtual p = -1) ->
   AssignmentParticipation.start a p = Assignment.start_time a) /\
  (~ (Assignment.time_limit a = None /\
      (AssignmentParticipation.virtual p = 0 \/ AssignmentParticipation.virtual p = -1)) ->
   AssignmentParticipation.start a p = Some (AssignmentParticipation.real_start p)).
Proof.
  unfold AssignmentParticipation.start, AssignmentParticipation.live,
    AssignmentParticipation.spectate, AssignmentParticipation.LIVE,
    AssignmentParticipation.SPECTATE.
  destruct (Assignment.time_limit a) as [l |]; simpl.
  - split; [intros [Hl _]; discriminate Hl | reflexivity].
  - destruct (Z.eqb_spec (AssignmentParticipation.virtual p) 0) as [H0 | H0];
      destruct (Z.eqb_spec (AssignmentParticipation.virtual p) (-1)) as [H1 | H1];
      simpl; split; intros H; try reflexivity;
      try (exfalso; apply H; auto).
    destruct H as [_ [H | H]]; contradiction.
Qed.

(** C8.  With the end of the participation evaluated to [e]: [ended] is
    true exactly when [e] is a time strictly before [now]; [time_remaining]
    is the end minus [now] when [e] is a time not before [now], and is
    [None], not the zero duration, in every other case. *)
Theorem ended_and_time_remaining (a : Assignment.t)
    (p : AssignmentParticipation.t) (now : Z) (e : option Z) :
  AssignmentParticipation.end_time a p = Val e ->
  (exists b, AssignmentParticipation.ended a p now = Val b /\
             (b = true <-> exists t, e = Some t /\ t < now)) /\
  (forall t, e = Some t -> now <= t ->
             AssignmentParticipation.time_remaining a p now = Val (Some (t - now))) /\
  (~ (exists t, e = Some t /\ now <= t) ->
   AssignmentParticipation.time_remaining a p now = Val None).
Proof.
  intros He.
  unfold AssignmentParticipation.ended, AssignmentParticipation.time_remaining.
  rewrite He. destruct e as [t |].
  - split; [| split].
    + exists (t <? now). split; [reflexivity |]. rewrite Z.ltb_lt. split.
      * intros H. exists t. auto.
      * intros (t' & Ht & H). inversion Ht; subst. exact H.
    + intros t' Ht Hle. inversion Ht; subst.
      destruct (Z.leb_spec now t'); [reflexivity | lia].
    + intros Hno. destruct (Z.leb_spec now t); [| reflexivity].
      exfalso. apply Hno. exists t. auto.
  - split; [| split].
    + exists false. split; [reflexivity |]. split; [discriminate |].
      intros (t & Ht & _). discriminate Ht.
    + intros t Ht. discriminate Ht.
    + reflexivity.
Qed.

(** ** The operations on sample data *)

(** C9 at an assignment whose start and end coincide: [clean] rejects
    it, and [update_user_count] stores it. *)
Lemma clean_rejects_inverted_window_witness :
  clean Sample.always_valid Sample.index_label Sample.a_inverted
  = Raise invalid_window /\
  exists self' w',
    update_user_count Sample.a_inverted Fixtures.w_unrated = (Val self', w') /\
    In self' (assignments (db w')).
Proof.
  destruct (clean_rejects_inverted_window Sample.always_valid Sample.index_label
              Sample.a_inverted 10 10 eq_refl eq_refl) as (Hraise & _ & Hsave).
  split; [apply Hraise; lia |].
  destruct (Hsave Fixtures.w_unrated eq_refl) as (self' & w' & Hu & Hin & _).
  exists self', w'. split; [exact Hu | exact Hin].
Defined.

(** The claim C9 as stated fails: [update_user_count] persists an
    assignment whose start is not before its end, one that [clean]
    rejects. *)
Lemma update_user_count_persists_inverted_window :
  exists self' w',
    update_user_count Sample.a_inverted Fixtures.w_unrated = (Val self', w') /\
    In self' (assignments (db w')) /\
    Assignment.start_time self' = Some 10 /\
    Assignment.end_time self' = Some 10 /\
    clean Sample.always_valid Sample.index_label self' = Raise invalid_window.
Proof.
  eexists _, _. split; [lazy; reflexivity |].
  split; [right; left; reflexivity |]. repeat split.
Qed.

(** C10 at an assignment with no start. *)
Lemma clean_without_window_runs_checks_witness :
  clean Sample.always_valid Sample.index_label Sample.a_unset = Val tt.
Proof.
  refine (proj1 (proj2 (proj2 (clean_without_window_runs_checks Sample.always_valid
                                 Sample.index_label Sample.a_unset _)))
            "1"%string _ _);
    [left |..]; reflexivity.
Defined.

(** C6 at a virtual participation of an assignment whose limit is zero:
    the end is 5 + (50 - 0), not 5 + 0. *)
Lemma end_time_virtual_zero_limit_witness :
  AssignmentParticipation.end_time Sample.a_zero_limit Sample.p_virtual
  = Val (Some 55).
Proof.
  refine (proj2 (end_time_virtual_zero_limit Sample.a_zero_limit Sample.p_virtual
                   0 50 eq_refl eq_refl eq_refl _ _) _);
    [discriminate | discriminate | vm_compute; split; discriminate].
Defined.

(** C8 at a live participation of an assignment that ends at 50, seen at
    50: not ended, and zero time remaining. *)
Lemma ended_and_time_remaining_witness :
  AssignmentParticipation.time_remaining Sample.a1 Sample.p1 50 = Val (Some 0).
Proof.
  refine (proj1 (proj2 (ended_and_time_remaining Sample.a1 Sample.p1 50 (Some 50) _))
            50 _ _); [reflexivity | reflexivity | lia].
Defined.

(** C4 at a disqualified participation whose submissions are worth 40: the
    call returns and the score is the sentinel. *)
Lemma recompute_results_score_witness :
  exists p w',
    recompute_results Sample.sum_points Sample.a1
      (AssignmentParticipation.set_is_disqualified true Sample.p1) Sample.w0
    = (Val p, w') /\
    AssignmentParticipation.score p = (-9999) # 1.
Proof.
  eexists _, _. split; [reflexivity |].
  apply (proj1 (proj1 (proj2 (proj2 (proj2
           (recompute_results_score Sample.sum_points Sample.a1
              (AssignmentParticipation.set_is_disqualified true Sample.p1)
              _ Sample.w0 _ eq_refl)))) eq_refl)).
Defined.

(** C5 on the same participation: the second call returns what the first
    returned and leaves the world as the first left it. *)
Lemma recompute_results_idempotent_witness :
  exists p1 w1,
    recompute_results Sample.sum_points Sample.a1
      (AssignmentParticipation.set_is_disqualified true Sample.p1) Sample.w0
    = (Val p1, w1) /\
    recompute_results Sample.sum_points Sample.a1 p1 w1 = (Val p1, w1).
Proof.
  eexists _, _. split; [reflexivity |].
  apply (proj2 (recompute_results_idempotent Sample.sum_points Sample.a1
                  (AssignmentParticipation.set_is_disqualified true Sample.p1)
                  _ Sample.w0 _ eq_refl)).
  reflexivity.
Defined.

(** C1 on the sample database, rating the assignment that ends at 50 with
    [now] at 100: its own rating row is deleted. *)
Lemma rate_deletes_closed_range_witness :
  exists w1,
    execute (Rating_delete_range (Assignment.end_time Sample.a1) 100) Sample.w0
    = (Val tt, w1) /\
    ~ In Sample.r1 (ratings (db w1)).
Proof.
  destruct (rate_deletes_closed_range Sample.one_row Sample.a1 100 50 Sample.w0
              eq_refl ltac:(discriminate))
    as (w1 & He & _ & Hiff & _).
  exists w1. split; [exact He |].
  intros Hin. apply Hiff in Hin as [_ Hno]. apply Hno.
  exists Sample.a1, 50. repeat split; try reflexivity; lia.
Defined.

(** The claim C1 as stated fails: with [now] at 100 the rating row of the
    assignment that ends at 100 is deleted. *)
Lemma rate_deletes_rating_ending_now :
  exists w1,
    execute (Rating_delete_range (Assignment.end_time Sample.a1) 100) Sample.w0
    = (Val tt, w1) /\
    rate Sample.one_row Sample.a1 100 Sample.w0
    = rollback Sample.w0 (rate_loop Sample.one_row Sample.a1 100 w1) /\
    In Sample.r2 (ratings (db Sample.w0)) /\
    assignment_of (db Sample.w0) (Rating.assignment Sample.r2) = Some Sample.a2 /\
    Assignment.end_time Sample.a2 = Some 100 /\
    ~ In Sample.r2 (ratings (db w1)).
Proof.
  eexists. split; [reflexivity |]. split; [reflexivity |].
  split; [right; left; reflexivity |]. split; [reflexivity |].
  split; [reflexivity |]. simpl. intros [].
Qed.

(** C2 on the sample database: the engine is called for the assignments 1
    and 2, in that order. *)
Lemma rate_calls_engine_in_order_witness :
  exists w' targets,
    rate Sample.one_row Sample.a1 100 Sample.w0 = (Val tt, w') /\
    StronglySorted ends_no_later targets /\
    calls w' = List.map Assignment.pk targets.
Proof.
  eexists _. 
  destruct (rate_calls_engine_in_order Sample.one_row Sample.a1 100 50
              Sample.w0 _ eq_refl eq_refl)
    as (d1 & targets & _ & _ & _ & Hs & Hc & _).
  exists targets. split; [reflexivity |]. split; [exact Hs | exact Hc].
Defined.

(** The claim C2 as stated fails: with [now] at 100 the engine is called
    for two assignments that both end at 100, an end that is not before
    [now], and the two calls are not in strictly ascending order of end. *)
Lemma rate_rates_assignments_ending_now :
  exists w',
    rate Sample.one_row Sample.a2 100 Sample.w_tie = (Val tt, w') /\
    Permutation (calls w') [Assignment.pk Sample.a2; Assignment.pk Sample.a4] /\
    Assignment.pk Sample.a2 <> Assignment.pk Sample.a4 /\
    Assignment.end_time Sample.a2 = Some 100 /\
    Assignment.end_time Sample.a4 = Some 100.
Proof.
  eexists. split; [reflexivity |]. split; [apply Permutation_refl |].
  split; [discriminate |]. split; reflexivity.
Qed.



(** ** The colour of a tag *)

Lemma hex_value_bound c v : AssignmentTag.hex_value c = Some v -> (v < 16)%N.
Proof.
  unfold AssignmentTag.hex_value. set (n := Ascii.N_of_ascii c).
  destruct ((48 <=? n)%N && (n <=? 57)%N) eqn:E1;
    [| destruct ((97 <=? n)%N && (n <=? 102)%N) eqn:E2;
       [| destruct ((65 <=? n)%N && (n <=? 70)%N) eqn:E3]];
    intros H; inversion H; subst;
    repeat match goal with
           | E : (_ && _) = true |- _ =>
               apply andb_true_iff in E as [?%N.leb_le ?%N.leb_le]
           end; lia.
Qed.

Lemma hex_value_not_space c v :
  AssignmentTag.hex_value c = Some v -> AssignmentTag.is_space c = false.
Proof.
  unfold AssignmentTag.hex_value, AssignmentTag.is_space.
  set (n := Ascii.N_of_ascii c).
  destruct ((48 <=? n)%N && (n <=? 57)%N) eqn:E1;
    [| destruct ((97 <=? n)%N && (n <=? 102)%N) eqn:E2;
       [| destruct ((65 <=? n)%N && (n <=? 70)%N) eqn:E3]];
    intros H; try discriminate H;
    repeat match goal with
           | E : (_ && _) = true |- _ =>
               apply andb_true_iff in E as [?%N.leb_le ?%N.leb_le]
           end;
    apply orb_false_iff; split;
    [apply N.eqb_neq; lia | apply andb_false_iff; right; apply N.leb_gt; lia
    |apply N.eqb_neq; lia | apply andb_false_iff; right; apply N.leb_gt; lia
    |apply N.eqb_neq; lia | apply andb_false_iff; right; apply N.leb_gt; lia].
Qed.

Lemma fromhex_pair c1 c2 v1 v2 s :
  AssignmentTag.hex_value c1 = Some v1 ->
  AssignmentTag.hex_value c2 = Some v2 ->
  AssignmentTag.fromhex (String c1 (String c2 s))
  = match AssignmentTag.fromhex s with
    | inl bs => inl ((16 * v1 + v2)%N :: bs)
    | inr e => inr e
    end.
Proof.
  intros H1 H2. cbn [AssignmentTag.fromhex].
  rewrite (hex_value_not_space _ _ H1), H1, H2. reflexivity.
Qed.

Lemma components_short (p a b c : Ascii.ascii) (x y z : N) :
  AssignmentTag.hex_value a = Some x ->
  AssignmentTag.hex_value b = Some y ->
  AssignmentTag.hex_value c = Some z ->
  AssignmentTag.components (String p (String a (String b (String c EmptyString))))
  = inl ((17 * x)%N, (17 * y)%N, (17 * z)%N).
Proof.
  intros Ha Hb Hc. unfold AssignmentTag.components.
  cbn [String.length Nat.eqb AssignmentTag.tail AssignmentTag.doubled_digits].
  rewrite !(fromhex_pair _ _ _ _ _ Ha Ha), !(fromhex_pair _ _ _ _ _ Hb Hb),
    !(fromhex_pair _ _ _ _ _ Hc Hc).
  cbn [AssignmentTag.fromhex AssignmentTag.ord AssignmentTag.unpack3].
  repeat f_equal; lia.
Qed.

(** X1.  The three-digit form of a colour is read as the six-digit form
    with every digit doubled, and the first character of the string is
    never looked at: both give the components 17 times each digit. *)
Theorem components_short_is_doubled (p q a b c : Ascii.ascii) (x y z : N) :
  AssignmentTag.hex_value a = Some x ->
  AssignmentTag.hex_value b = Some y ->
  AssignmentTag.hex_value c = Some z ->
  AssignmentTag.components (String p (String a (String b (String c EmptyString))))
  = inl ((17 * x)%N, (17 * y)%N, (17 * z)%N) /\
  AssignmentTag.components
    (String q (String a (String a (String b (String b (String c (String c
       EmptyString)))))))
  = inl ((17 * x)%N, (17 * y)%N, (17 * z)%N).
Proof.
  intros Ha Hb Hc. split; [apply components_short; assumption |].
  unfold AssignmentTag.components.
  cbn [String.length Nat.eqb AssignmentTag.tail].
  rewrite (fromhex_pair _ _ _ _ _ Ha Ha), (fromhex_pair _ _ _ _ _ Hb Hb),
    (fromhex_pair _ _ _ _ _ Hc Hc).
  cbn [AssignmentTag.fromhex AssignmentTag.unpack3].
  repeat f_equal; lia.
Qed.

Lemma all_hex_cons c s :
  AssignmentTag.all_hex (String c s) = true ->
  (exists v, AssignmentTag.hex_value c = Some v) /\ AssignmentTag.all_hex s = true.
Proof.
  cbn [AssignmentTag.all_hex]. intros H. apply andb_true_iff in H as [H1 H2].
  split; [| exact H2]. destruct (AssignmentTag.hex_value c) as [v |]; [eauto | discriminate H1].
Qed.

(** [fromhex] on a string of hexadecimal digits: one byte for every two
    digits, each below 256, or an error when their number is odd. *)
Lemma fromhex_all_hex (n : nat) : forall s,
  (String.length s <= n)%nat ->
  AssignmentTag.all_hex s = true ->
  if Nat.even (String.length s) then
    exists bs, AssignmentTag.fromhex s = inl bs /\
               (2 * length bs = String.length s)%nat /\
               Forall (fun v => (v < 256)%N) bs
  else exists msg, AssignmentTag.fromhex s = inr (AssignmentTag.ValueError msg).
Proof.
  induction n as [| n IH]; intros s Hlen Hhex.
  - destruct s; [| simpl in Hlen; lia]. simpl. exists []. auto.
  - destruct s as [| c1 [| c2 s]].
    + simpl. exists []. auto.
    + apply all_hex_cons in Hhex as [(v & Hv) _]. cbn.
      rewrite (hex_value_not_space _ _ Hv), Hv. eauto.
    + apply all_hex_cons in Hhex as [(v1 & Hv1) Hhex].
      apply all_hex_cons in Hhex as [(v2 & Hv2) Hhex].
      rewrite (fromhex_pair _ _ _ _ _ Hv1 Hv2).
      cbn [String.length Nat.even].
      assert (Hn : (String.length s <= n)%nat) by (simpl in Hlen; lia).
      specialize (IH s Hn Hhex).
      destruct (Nat.even (String.length s)).
      * destruct IH as (bs & -> & Hl & Hall). eexists. split; [reflexivity |].
        split; [simpl; lia |]. constructor; [| exact Hall].
        apply hex_value_bound in Hv1, Hv2. lia.
      * destruct IH as (msg & ->). eauto.
Qed.

Lemma contrast_two_values rgb :
  AssignmentTag.contrast rgb = "#000"%string \/ AssignmentTag.contrast rgb = "#fff"%string.
Proof.
  destruct rgb as [[r g] b]. unfold AssignmentTag.contrast.
  destruct (140000 <? 299 * r + 587 * g + 144 * b)%N; auto.
Qed.

(** X2.  For a colour made of one character followed by three or six
    hexadecimal digits, the shapes "#rgb" and "#rrggbb", [text_color] does
    not raise: on an empty cache it answers "#000" or "#fff", the contrast of
    three components that are all below 256, and stores the answer under the
    colour. *)
Theorem text_color_of_valid_colour (p : Ascii.ascii) (digits : string) :
  AssignmentTag.all_hex digits = true ->
  String.length digits = 3%nat \/ String.length digits = 6%nat ->
  exists r g b,
    AssignmentTag.components (String p digits) = inl (r, g, b) /\
    (r < 256)%N /\ (g < 256)%N /\ (b < 256)%N /\
    AssignmentTag.text_color (String p digits) ∅
    = (inl (AssignmentTag.contrast (r, g, b)),
       <[String p digits := AssignmentTag.contrast (r, g, b)]> ∅) /\
    (AssignmentTag.contrast (r, g, b) = "#000"%string \/
     AssignmentTag.contrast (r, g, b) = "#fff"%string).
Proof.
  intros Hhex Hlen.
  assert (Hc : exists r g b,
             AssignmentTag.components (String p digits) = inl (r, g, b) /\
             (r < 256)%N /\ (g < 256)%N /\ (b < 256)%N).
  { destruct Hlen as [Hlen | Hlen].
    - destruct digits as [| a [| b [| c [| ? ?]]]]; try discriminate Hlen.
      apply all_hex_cons in Hhex as [(x & Hx) Hhex].
      apply all_hex_cons in Hhex as [(y & Hy) Hhex].
      apply all_hex_cons in Hhex as [(z & Hz) _].
      rewrite (components_short p a b c x y z Hx Hy Hz).
      apply hex_value_bound in Hx, Hy, Hz.
      exists (17 * x)%N, (17 * y)%N, (17 * z)%N. repeat split; lia.
    - pose proof (fromhex_all_hex 6 digits ltac:(lia) Hhex) as H.
      rewrite Hlen in H. cbn [Nat.even] in H. destruct H as (bs & Hbs & Hl & Hall).
      unfold AssignmentTag.components. cbn [String.length AssignmentTag.tail].
      rewrite Hlen. cbn [Nat.eqb]. rewrite Hbs.
      destruct bs as [| r [| g [| b [| ? ?]]]]; simpl in Hl; try lia.
      inversion Hall as [| ? ? Hr Hall1]; subst.
      inversion Hall1 as [| ? ? Hg Hall2]; subst.
      inversion Hall2 as [| ? ? Hb _]; subst.
      exists r, g, b. auto. }
  destruct Hc as (r & g & b & Hcomp & Hr & Hg & Hb).
  exists r, g, b. repeat split; try assumption.
  - unfold AssignmentTag.text_color. rewrite lookup_empty, Hcomp. reflexivity.
  - apply contrast_two_values.
Qed.

(** X3.  With any other number of hexadecimal digits after the first
    character, or with the empty string, the components cannot be read and
    [text_color] raises [ValueError], leaving the cache as it was. *)
Theorem text_color_of_wrong_length (color : string) (cache : gmap string string) :
  AssignmentTag.all_hex (AssignmentTag.tail color) = true ->
  String.length (AssignmentTag.tail color) <> 3%nat ->
  String.length (AssignmentTag.tail color) <> 6%nat ->
  cache !! color = None ->
  exists msg,
    AssignmentTag.text_color color cache = (inr (AssignmentTag.ValueError msg), cache).
Proof.
  intros Hhex H3 H6 Hmiss.
  assert (Hc : exists msg,
             AssignmentTag.components color = inr (AssignmentTag.ValueError msg)).
  { unfold AssignmentTag.components.
    assert (H4 : (String.length color =? 4)%nat = false).
    { apply Nat.eqb_neq. intros H. apply H3.
      destruct color as [| c s]; simpl in *; lia. }
    rewrite H4.
    pose proof (fromhex_all_hex _ (AssignmentTag.tail color) (Nat.le_refl _) Hhex) as H.
    destruct (Nat.even (String.length (AssignmentTag.tail color))).
    - destruct H as (bs & -> & Hl & _).
      destruct bs as [| r [| g [| b [| ? ?]]]]; simpl in Hl; simpl; eauto.
      exfalso. apply H6. lia.
    - destruct H as (msg & ->). eauto. }
  destruct Hc as (msg & Hc). exists msg.
  unfold AssignmentTag.text_color. rewrite Hmiss, Hc. reflexivity.
Qed.

(** X4.  The cache of [text_color]: a colour found in the cache is answered
    from it without reading the colour; after a call that returned, a second
    call for the same colour returns the same answer and leaves the cache as
    it is, and the entries of the other colours are those of before; a call
    that raised has not changed the cache. *)
Theorem text_color_cache (color : string) (cache cache' : gmap string string)
    (r : AssignmentTag.res string) :
  AssignmentTag.text_color color cache = (r, cache') ->
  (forall v, cache !! color = Some v -> r = inl v /\ cache' = cache) /\
  (forall v, r = inl v ->
             cache' !! color = Some v /\
             AssignmentTag.text_color color cache' = (inl v, cache') /\
             forall other, other <> color -> cache' !! other = cache !! other) /\
  (forall e, r = inr e -> cache' = cache).
Proof.
  unfold AssignmentTag.text_color. intros H.
  destruct (cache !! color) as [v0 |] eqn:Hlook.
  - injection H as <- <-. split; [| split].
    + intros v1 Hv. injection Hv as <-. auto.
    + intros v1 Hv. injection Hv as <-. rewrite Hlook. auto.
    + intros e He. discriminate He.
  - destruct (AssignmentTag.components color) as [rgb | e0] eqn:Hc;
      injection H as <- <-; (split; [| split]).
    + intros v1 Hv. discriminate Hv.
    + intros v1 Hv. injection Hv as <-. rewrite lookup_insert_eq.
      split; [reflexivity |]. split; [reflexivity |].
      intros other Hne. apply lookup_insert_ne. congruence.
    + intros e He. discriminate He.
    + intros v1 Hv. discriminate Hv.
    + intros v1 Hv. discriminate Hv.
    + reflexivity.
Qed.

(** ** The window of an assignment *)

(** X5.  [can_join] and [time_before_start] split time at the start: one
    can join exactly from the start on; before the start the time left is
    positive; at the start itself one can join and the time left is zero;
    and [time_before_start] is [None] only once one can join. *)
Theorem can_join_and_time_before_start (self : Assignment.t) (now s : Z) :
  Assignment.start_time self = Some s ->
  (can_join self now = Val true <-> s <= now) /\
  (can_join self now = Val false ->
   time_before_start self now = Val (Some (s - now)) /\ 0 < s - now) /\
  (s = now ->
   can_join self now = Val true /\ time_before_start self now = Val (Some 0)) /\
  (time_before_start self now = Val None -> can_join self now = Val true).
Proof.
  intros Hs. unfold can_join, datetime_le, time_before_start. rewrite Hs.
  destruct (Z.leb_spec s now) as [H1 | H1];
    destruct (Z.leb_spec now s) as [H2 | H2]; try lia;
    (split; [split; intros H; solve [reflexivity | discriminate H | lia] |]);
    (split; [intros H; solve [discriminate H | split; [reflexivity | lia]] |]);
    (split; [intros H; solve [lia | subst; rewrite Z.sub_diag; auto] |]);
    intros H; solve [reflexivity | discriminate H].
Qed.

(** X6.  On an assignment whose start is before its end: it has ended
    exactly when [time_before_end] is [None]; once ended it can still be
    joined, since [can_join] looks at the start only; and before the start
    the two remaining times differ by the length of the window. *)
Theorem assignment_ended_and_time_before_end (self : Assignment.t) (now s e : Z) :
  Assignment.start_time self = Some s ->
  Assignment.end_time self = Some e ->
  s < e ->
  (assignment_ended self now = Val true <-> time_before_end self now = Val None) /\
  (assignment_ended self now = Val true -> can_join self now = Val true) /\
  (can_join self now = Val false ->
   exists ds de w,
     time_before_start self now = Val (Some ds) /\
     time_before_end self now = Val (Some de) /\
     assignment_window_length self = Val w /\
     de - ds = w).
Proof.
  intros Hs He Hlt.
  unfold assignment_ended, datetime_lt, time_before_end, can_join, datetime_le,
    time_before_start, assignment_window_length, AssignmentParticipation.datetime_sub.
  rewrite Hs, He.
  destruct (Z.ltb_spec e now) as [H1 | H1];
    destruct (Z.leb_spec now e) as [H2 | H2]; try lia;
    destruct (Z.leb_spec s now) as [H3 | H3]; try lia;
    destruct (Z.leb_spec now s) as [H4 | H4]; try lia;
    (split; [split; intros H; (reflexivity || discriminate H) |]);
    (split; [intros H; (reflexivity || discriminate H) |]);
    intros H; try discriminate H.
  exists (s - now), (e - now), (e - s). repeat split. lia.
Qed.

(** ** The scoreboard *)

Lemma show_scoreboard_before_start self acl now s :
  Assignment.start_time self = Some s -> now < s ->
  show_scoreboard self acl now = Val false.
Proof.
  intros Hs Hlt. unfold show_scoreboard, can_join, datetime_le. rewrite Hs.
  destruct (Z.leb_spec s now); [lia | reflexivity].
Qed.

(** X7.  When the scoreboard is shown to everybody: never before the
    start; from the start on with a visibility other than "C" and "P", and
    then the end of the assignment is not even read; with "C" or "P" only
    once the end has passed. *)
Theorem show_scoreboard_cases (self : Assignment.t) (acl : AssignmentAccess.t)
    (now s : Z) :
  Assignment.start_time self = Some s ->
  (now < s -> show_scoreboard self acl now = Val false) /\
  (s <= now ->
   AssignmentAccess.scoreboard_visibility acl <> "C"%string ->
   AssignmentAccess.scoreboard_visibility acl <> "P"%string ->
   show_scoreboard self acl now = Val true) /\
  (forall e,
      Assignment.end_time self = Some e ->
      s <= now ->
      AssignmentAccess.scoreboard_visibility acl = "C"%string \/
      AssignmentAccess.scoreboard_visibility acl = "P"%string ->
      show_scoreboard self acl now = Val (e <? now)).
Proof.
  intros Hs. split; [apply show_scoreboard_before_start, Hs |].
  unfold show_scoreboard, can_join, datetime_le, assignment_ended, datetime_lt,
    AssignmentAccess.SCOREBOARD_AFTER_CONTEST,
    AssignmentAccess.SCOREBOARD_AFTER_PARTICIPATION.
  rewrite Hs. split.
  - intros Hle HC HP. destruct (Z.leb_spec s now); [| lia].
    apply String.eqb_neq in HC, HP. rewrite HC, HP. reflexivity.
  - intros e He Hle Hvis. destruct (Z.leb_spec s now); [| lia]. rewrite He.
    assert (Hb : (AssignmentAccess.scoreboard_visibility acl =? "C")%string
                 || (AssignmentAccess.scoreboard_visibility acl =? "P")%string = true).
    { destruct Hvis as [-> | ->]; reflexivity. }
    rewrite Hb. destruct (e <? now); reflexivity.
Qed.

(** X8.  An anonymous user sees the full scoreboard, and its own, exactly
    when the scoreboard is shown to everybody; an error of
    [show_scoreboard] is the error of both. *)
Theorem anonymous_sees_what_is_shown (self : Assignment.t)
    (acl : AssignmentAccess.t) (d : DB) (now now_p : Z) :
  can_see_full_scoreboard self acl AnonymousUser d now now_p
  = show_scoreboard self acl now /\
  can_see_own_scoreboard self acl AnonymousUser d now now_p
  = show_scoreboard self acl now.
Proof.
  unfold can_see_own_scoreboard, can_see_full_scoreboard.
  destruct (show_scoreboard self acl now) as [[|] | e] eqn:Hshow; split;
    try reflexivity.
  unfold show_scoreboard in Hshow.
  destruct (can_join self now) as [[|] | e]; try reflexivity.
  discriminate Hshow.
Qed.

Lemma full_scoreboard_false_not_shown self acl user d now now_p :
  can_see_full_scoreboard self acl user d now now_p = Val false ->
  show_scoreboard self acl now = Val false.
Proof.
  unfold can_see_full_scoreboard.
  destruct (show_scoreboard self acl now) as [[|] | e]; auto; discriminate.
Qed.

(** X9.  One's own scoreboard: a user sees it when it sees the full
    scoreboard, or when the assignment has started and the user's current
    participation is in this assignment. *)
Theorem can_see_own_scoreboard_cases (self : Assignment.t)
    (acl : AssignmentAccess.t) (user : User) (d : DB) (now now_p : Z)
    (full joined inside : bool) :
  can_see_full_scoreboard self acl user d now now_p = Val full ->
  can_join self now = Val joined ->
  is_in_assignment self user d = Val inside ->
  can_see_own_scoreboard self acl user d now now_p
  = Val (full || (joined && inside)).
Proof.
  intros Hfull Hjoin Hin. unfold can_see_own_scoreboard.
  rewrite Hfull. destruct full; [reflexivity |].
  rewrite Hjoin. destruct joined; [| reflexivity].
  rewrite (full_scoreboard_false_not_shown _ _ _ _ _ _ Hfull), Hin.
  destruct inside; reflexivity.
Qed.

Lemma first_by_pk_In l q : first_by_pk l = Some q -> In q l.
Proof.
  revert q. induction l as [| p l IH]; intros q H; simpl in H; [discriminate H |].
  destruct (first_by_pk l) as [q0 |].
  - destruct (AssignmentParticipation.pk p <=? AssignmentParticipation.pk q0);
      inversion H; subst; [left; reflexivity | right; apply IH; reflexivity].
  - inversion H. left. reflexivity.
Qed.

Lemma first_by_pk_None l : first_by_pk l = None -> l = [].
Proof.
  destruct l as [| p l]; [reflexivity |]. simpl.
  destruct (first_by_pk l) as [q0 |]; [| discriminate].
  destruct (AssignmentParticipation.pk p <=? AssignmentParticipation.pk q0); discriminate.
Qed.

(** X10.  [has_completed_assignment] looks at the live participation only:
    without a live participation of the user in this assignment the answer
    is false, whatever virtual or spectating participations the user has;
    with one, which the uniqueness of (assignment, user, virtual) makes the
    only one, the answer is whether that participation has ended. *)
Theorem has_completed_assignment_live_only (self : Assignment.t)
    (perms : string -> bool) (profile : Profile.t) (orgs : gset Z)
    (d : DB) (now_p : Z) :
  ((forall p, In p (participations d) ->
              AssignmentParticipation.assignment p = Assignment.pk self ->
              AssignmentParticipation.user p = Profile.pk profile ->
              AssignmentParticipation.virtual p <> 0) ->
   has_completed_assignment self (AuthenticatedUser perms profile orgs) d now_p
   = Val false) /\
  (forall p,
      In p (participations d) ->
      AssignmentParticipation.assignment p = Assignment.pk self ->
      AssignmentParticipation.user p = Profile.pk profile ->
      AssignmentParticipation.virtual p = 0 ->
      (forall q, In q (participations d) ->
                 AssignmentParticipation.assignment q = Assignment.pk self ->
                 AssignmentParticipation.user q = Profile.pk profile ->
                 AssignmentParticipation.virtual q = 0 -> q = p) ->
      has_completed_assignment self (AuthenticatedUser perms profile orgs) d now_p
      = AssignmentParticipation.ended self p now_p).
Proof.
  assert (Hlive : forall q,
             In q (live_participations self profile d) <->
             In q (participations d) /\
             AssignmentParticipation.assignment q = Assignment.pk self /\
             AssignmentParticipation.virtual q = 0 /\
             AssignmentParticipation.user q = Profile.pk profile).
  { intros q. unfold live_participations, AssignmentParticipation.LIVE.
    rewrite filter_In, !andb_true_iff, !Z.eqb_eq. tauto. }
  unfold has_completed_assignment. split.
  - intros Hno.
    destruct (first_by_pk (live_participations self profile d)) as [q |] eqn:Hf;
      [| reflexivity].
    apply first_by_pk_In, Hlive in Hf as (Hin & Ha & Hv & Hu).
    exfalso. exact (Hno q Hin Ha Hu Hv).
  - intros p Hin Ha Hu Hv Huniq.
    destruct (first_by_pk (live_participations self profile d)) as [q |] eqn:Hf.
    + apply first_by_pk_In, Hlive in Hf as (Hqin & Hqa & Hqv & Hqu).
      rewrite (Huniq q Hqin Hqa Hqu Hqv).
      destruct (AssignmentParticipation.ended self p now_p) as [[|] |]; reflexivity.
    + apply first_by_pk_None in Hf.
      assert (Hp : In p (live_participations self profile d)) by (apply Hlive; auto).
      rewrite Hf in Hp. destruct Hp.
Qed.

(** X11.  The two hidden modes, for a user with no privilege on a running
    assignment: with "C" the full scoreboard stays hidden until the
    assignment ends; with "P" it opens as soon as the user's own live
    participation has ended. *)
Theorem hidden_scoreboard_modes (self : Assignment.t) (acl : AssignmentAccess.t)
    (perms : string -> bool) (profile : Profile.t) (orgs : gset Z)
    (d : DB) (now now_p s e : Z) :
  Assignment.start_time self = Some s ->
  Assignment.end_time self = Some e ->
  s <= now <= e ->
  perms "judge.see_private_assignment"%string = false ->
  perms "judge.edit_all_assignment"%string = false ->
  Profile.pk profile ∉ AssignmentAccess.editor_ids acl ->
  Profile.pk profile ∉ AssignmentAccess.view_assignment_scoreboard acl ->
  (AssignmentAccess.scoreboard_visibility acl = "C"%string ->
   can_see_full_scoreboard self acl (AuthenticatedUser perms profile orgs) d now now_p
   = Val false) /\
  (AssignmentAccess.scoreboard_visibility acl = "P"%string ->
   can_see_full_scoreboard self acl (AuthenticatedUser perms profile orgs) d now now_p
   = has_completed_assignment self (AuthenticatedUser perms profile orgs) d now_p).
Proof.
  intros Hs He Hrun Hp1 Hp2 Hed Hview.
  assert (Hshow : AssignmentAccess.scoreboard_visibility acl = "C"%string \/
                  AssignmentAccess.scoreboard_visibility acl = "P"%string ->
                  show_scoreboard self acl now = Val false).
  { intros Hvis. unfold show_scoreboard, can_join, datetime_le, assignment_ended,
      datetime_lt, AssignmentAccess.SCOREBOARD_AFTER_CONTEST,
      AssignmentAccess.SCOREBOARD_AFTER_PARTICIPATION.
    rewrite Hs, He. destruct (Z.leb_spec s now); [| lia].
    destruct (Z.ltb_spec e now); [lia |].
    destruct Hvis as [-> | ->]; reflexivity. }
  unfold can_see_full_scoreboard. rewrite Hp1, Hp2.
  rewrite !bool_decide_eq_false_2 by assumption. cbn [orb].
  unfold AssignmentAccess.SCOREBOARD_AFTER_PARTICIPATION.
  split; intros Hvis.
  - rewrite Hshow by auto. rewrite Hvis. reflexivity.
  - rewrite Hshow by auto. rewrite Hvis, String.eqb_refl.
    destruct (has_completed_assignment self (AuthenticatedUser perms profile orgs)
                d now_p) as [[|] |]; reflexivity.
Qed.

(** ** Access to an assignment *)

Lemma editor_ids_decide acl (x : Z) :
  bool_decide (x ∈ AssignmentAccess.editor_ids acl)
  = bool_decide (x ∈ AssignmentAccess.authors acl)
    || bool_decide (x ∈ AssignmentAccess.curators acl).
Proof.
  unfold AssignmentAccess.editor_ids. rewrite <- bool_decide_or.
  apply bool_decide_ext, elem_of_union.
Qed.

(** The condition of the queryset and the outcome of [access_check] agree
    on every row, for a user without the two permissions. *)
Lemma visible_q_is_access acl perms profile orgs :
  perms "judge.see_private_assignment"%string
  || perms "judge.edit_all_assignment"%string = false ->
  visible_q acl profile orgs
  = is_accessible_by acl (AuthenticatedUser perms profile orgs).
Proof.
  intros Hperm. unfold is_accessible_by, access_check, visible_q.
  rewrite Hperm, editor_ids_decide. unfold AssignmentAccess.tester_ids.
  destruct (bool_decide (Profile.pk profile ∈ AssignmentAccess.authors acl));
    destruct (bool_decide (Profile.pk profile ∈ AssignmentAccess.curators acl));
    destruct (bool_decide (Profile.pk profile ∈ AssignmentAccess.testers acl));
    destruct (AssignmentAccess.is_visible acl);
    destruct (AssignmentAccess.is_private acl);
    destruct (AssignmentAccess.is_organization_private acl);
    destruct (bool_decide
                (Profile.pk profile ∈ AssignmentAccess.view_assignment_scoreboard acl));
    destruct (bool_decide
                (Profile.pk profile ∈ AssignmentAccess.private_assignmentants acl));
    destruct (in_org acl orgs); reflexivity.
Qed.

(** X12.  The queryset of [get_visible_assignments] and [is_accessible_by]
    describe the same assignments: a row of the table is returned for a user
    exactly when that user passes the access check of the row. *)
Theorem get_visible_assignments_are_the_accessible (user : User)
    (rows : list (Assignment.t * AssignmentAccess.t))
    (row : Assignment.t * AssignmentAccess.t) :
  In row (get_visible_assignments user rows) <->
  In row rows /\ is_accessible_by (snd row) user = true.
Proof.
  destruct user as [| perms profile orgs]; unfold get_visible_assignments.
  - rewrite filter_In. unfold is_accessible_by, access_check.
    destruct (AssignmentAccess.is_visible (snd row)),
      (AssignmentAccess.is_private (snd row)),
      (AssignmentAccess.is_organization_private (snd row)); simpl; tauto.
  - destruct (perms "judge.see_private_assignment"%string
              || perms "judge.edit_all_assignment"%string) eqn:Hperm; cbn [negb].
    + unfold is_accessible_by, access_check. rewrite Hperm. tauto.
    + rewrite filter_In, (visible_q_is_access _ perms _ _ Hperm). tauto.
Qed.

(** X13.  Whoever may edit an assignment may see it: [is_editable_by]
    implies [is_accessible_by], whatever the visibility and the privacy of
    the assignment. *)
Theorem editable_is_accessible (acl : AssignmentAccess.t) (user : User) :
  is_editable_by acl user = true -> is_accessible_by acl user = true.
Proof.
  unfold is_editable_by, is_accessible_by, access_check, has_perm.
  destruct user as [| perms profile orgs]; [discriminate |].
  destruct (perms "judge.edit_all_assignment"%string).
  - rewrite orb_true_r. reflexivity.
  - rewrite orb_false_r.
    destruct (perms "judge.see_private_assignment"%string); [reflexivity |].
    destruct (perms "judge.edit_own_assignment"%string); [| discriminate].
    destruct (bool_decide (Profile.pk profile ∈ AssignmentAccess.editor_ids acl));
      [reflexivity | discriminate].
Qed.

(** X14.  What [access_check] never does: it raises [Inaccessible] only
    for an assignment that is not visible, and [PrivateAssignment] only for
    a visible assignment that is private to users or to organizations; a
    visible assignment with neither privacy is open to every user. *)
Theorem access_check_errors (acl : AssignmentAccess.t) (user : User) :
  (access_check acl user = Inaccessible -> AssignmentAccess.is_visible acl = false) /\
  (access_check acl user = PrivateAssignment ->
   AssignmentAccess.is_visible acl = true /\
   (AssignmentAccess.is_private acl = true \/
    AssignmentAccess.is_organization_private acl = true)) /\
  (AssignmentAccess.is_visible acl = true ->
   AssignmentAccess.is_private acl = false ->
   AssignmentAccess.is_organization_private acl = false ->
   access_check acl user = Granted).
Proof.
  unfold access_check. destruct user as [| perms profile orgs].
  - destruct (AssignmentAccess.is_visible acl), (AssignmentAccess.is_private acl),
      (AssignmentAccess.is_organization_private acl); simpl;
      repeat split; intros; try discriminate; auto.
  - destruct (perms "judge.see_private_assignment"%string
              || perms "judge.edit_all_assignment"%string);
      [repeat split; intros; discriminate || auto |].
    destruct (bool_decide (Profile.pk profile ∈ AssignmentAccess.editor_ids acl));
      [repeat split; intros; discriminate || auto |].
    destruct (bool_decide (Profile.pk profile ∈ AssignmentAccess.tester_ids acl));
      [repeat split; intros; discriminate || auto |].
    destruct (AssignmentAccess.is_visible acl), (AssignmentAccess.is_private acl),
      (AssignmentAccess.is_organization_private acl);
      destruct (bool_decide
                  (Profile.pk profile ∈ AssignmentAccess.view_assignment_scoreboard acl));
      destruct (bool_decide
                  (Profile.pk profile ∈ AssignmentAccess.private_assignmentants acl));
      destruct (in_org acl orgs); simpl;
      repeat split; intros; try discriminate; auto.
Qed.

(** ** More on the operations *)

Section MoreOnOperations.

Variable format_validate : string -> option string -> result unit.
Variable label_for_problem : Assignment.t -> Z -> outcome.
Variable format_results :
  Assignment.t -> Z -> Z -> list AssignmentSubmission.t -> Q * N * option string.
Variable rate_assignment : Assignment.t -> DB -> result DB.

Lemma set_db_same w : set_db (db w) w = w.
Proof. destruct w; reflexivity. Qed.

Lemma set_ratings_same d : set_ratings (ratings d) d = d.
Proof. destruct d; reflexivity. Qed.

Lemma filter_all {A : Type} (f : A -> bool) (l : list A) :
  (forall x, In x l -> f x = true) -> List.filter f l = l.
Proof.
  induction l as [| x l IH]; intros H; simpl; [reflexivity |].
  rewrite (H x (or_introl eq_refl)), IH; [reflexivity |].
  intros y Hy. apply H. right. exact Hy.
Qed.

Lemma filter_none {A : Type} (f : A -> bool) (l : list A) :
  (forall x, In x l -> f x = false) -> List.filter f l = [].
Proof.
  induction l as [| x l IH]; intros H; simpl; [reflexivity |].
  rewrite (H x (or_introl eq_refl)). apply IH.
  intros y Hy. apply H. right. exact Hy.
Qed.

Lemma end_time_range_empty lo now a :
  now < lo -> end_time_range (Some lo) now a = false.
Proof.
  intros Hlt. unfold end_time_range, between.
  destruct (Assignment.end_time a) as [e |]; [| reflexivity].
  destruct (Z.leb_spec lo e); destruct (Z.leb_spec e now); try reflexivity. lia.
Qed.

(** X15.  [rate] on an assignment that has not ended yet does nothing: the
    range from its end to [now] is empty, so no rating row is deleted and
    the engine is called for no assignment, not even for this one. *)
Theorem rate_before_end_does_nothing (self : Assignment.t) (now lo : Z) (w : World) :
  Assignment.end_time self = Some lo ->
  now < lo ->
  fuse w = None ->
  rate rate_assignment self now w = (Val tt, w).
Proof.
  intros Hlo Hlt Hf.
  assert (Hdel : Rating_delete_range (Some lo) now (db w) = Val (db w)).
  { unfold Rating_delete_range. rewrite filter_all; [rewrite set_ratings_same; reflexivity |].
    intros r _. unfold rating_in_range.
    destruct (assignment_of (db w) (Rating.assignment r)); [| reflexivity].
    rewrite end_time_range_empty by exact Hlt. reflexivity. }
  assert (Hq : rated_in_range_ordered (Some lo) now (db w) = []).
  { unfold rated_in_range_ordered, rated_in_range. rewrite filter_none; [reflexivity |].
    intros a _. rewrite end_time_range_empty by exact Hlt. apply andb_false_r. }
  unfold rate, atomic, rate_loop, execute, query, bind. rewrite Hlo.
  rewrite (tick_no_fuse w Hf). cbv beta iota. rewrite Hdel. cbv beta iota.
  rewrite set_db_same, (tick_no_fuse w Hf). cbv beta iota. rewrite Hq.
  reflexivity.
Qed.

Lemma for_each_engine_raises (l : list Assignment.t) (w : World) (e : exn) :
  fuse w = None ->
  run_engine rate_assignment l (db w) = Raise e ->
  exists w', for_each l (call_rate_assignment rate_assignment) w = (Raise e, w').
Proof.
  revert w. induction l as [| a l IH]; intros w Hf Hrun; simpl in Hrun.
  - discriminate Hrun.
  - simpl. unfold bind at 1. unfold call_rate_assignment, bind.
    rewrite (tick_no_fuse w Hf).
    destruct (rate_assignment a (db w)) as [d' | e'] eqn:Hcall.
    + apply IH; [exact Hf | exact Hrun].
    + inversion Hrun; subst. eauto.
Qed.

(** X16.  [rate] is all or nothing.  Whenever it raises, the database is
    the one it started from; in particular, when the engine raises on one of
    the assignments to rate, [rate] raises the same exception and the rating
    rows deleted at its start, and those written by the earlier calls of the
    engine, are back as they were. *)
Theorem rate_is_all_or_nothing (self : Assignment.t) (now : Z) (w : World) :
  (forall e w', rate rate_assignment self now w = (Raise e, w') -> db w' = db w) /\
  (forall d1 e,
      fuse w = None ->
      Rating_delete_range (Assignment.end_time self) now (db w) = Val d1 ->
      run_engine rate_assignment
        (rated_in_range_ordered (Assignment.end_time self) now d1) d1 = Raise e ->
      exists w', rate rate_assignment self now w = (Raise e, w') /\ db w' = db w).
Proof.
  split.
  - intros e w' H. unfold rate in H. eapply atomic_raise, H.
  - intros d1 e Hf Hdel Hrun.
    assert (He : exists w', rate rate_assignment self now w = (Raise e, w')).
    { unfold rate, atomic, rate_loop, execute, query, bind.
      rewrite (tick_no_fuse w Hf). cbv beta iota. rewrite Hdel. cbv beta iota.
      rewrite tick_no_fuse by exact Hf. cbv beta iota.
      match goal with
      | |- context [for_each ?l _ ?v] =>
          destruct (for_each_engine_raises l v e Hf Hrun) as (w' & ->)
      end.
      eexists. reflexivity. }
    destruct He as (w' & He). exists w'. split; [exact He |].
    unfold rate in He. eapply atomic_raise, He.
Qed.

(** What [recompute_results] leaves alone: the log of the engine and every
    table but the participations. *)
Lemma recompute_results_tables assignment self w p w' :
  recompute_results format_results assignment self w = (Val p, w') ->
  calls w' = calls w /\
  AssignmentParticipation.pk p = AssignmentParticipation.pk self /\
  db w' = set_participations (participations (db w')) (db w).
Proof.
  intros H. unfold recompute_results in H. apply atomic_val in H.
  apply bind_val in H as (p0 & w0 & Hu & H).
  apply update_participation_val in Hu as (Hp0 & Hsave & Hc0).
  assert (Hd0 : db w0 = set_participations (participations (db w0)) (db w)).
  { unfold Participation_save in Hsave.
    destruct (participation_exists p0 (db w)); injection Hsave as <-; reflexivity. }
  destruct (AssignmentParticipation.is_disqualified p0).
  - apply bind_val in H as ([] & w2 & He & H).
    apply execute_val in He as (Hs & Hc2 & _). injection H as <- <-.
    split; [congruence |]. split; [rewrite Hp0; reflexivity |].
    unfold Participation_save_score in Hs.
    destruct (participation_exists _ (db w0)); [| discriminate Hs].
    injection Hs as <-. rewrite Hd0. reflexivity.
  - injection H as <- <-. split; [exact Hc0 |]. split; [rewrite Hp0; reflexivity |].
    exact Hd0.
Qed.

Lemma In_update_row_other k f rows r :
  AssignmentParticipation.pk r <> k ->
  (forall x, AssignmentParticipation.pk x = k -> AssignmentParticipation.pk (f x) = k) ->
  In r (update_row k f rows) <-> In r rows.
Proof.
  intros Hk Hf. unfold update_row. rewrite in_map_iff. split.
  - intros (r0 & Hr0 & Hin).
    destruct (Z.eqb_spec (AssignmentParticipation.pk r0) k) as [E | E].
    + exfalso. apply Hk. rewrite <- Hr0. apply Hf, E.
    + subst. exact Hin.
  - intros Hin. exists r. split; [| exact Hin].
    destruct (Z.eqb_spec (AssignmentParticipation.pk r) k); [contradiction | reflexivity].
Qed.

(** X17.  What [recompute_results] never touches: the rows of the other
    participations, the other tables and the log of the engine are, when it
    returns, what they were; the participation keeps its primary key. *)
Theorem recompute_results_touches_one_row (assignment : Assignment.t)
    (self p : AssignmentParticipation.t) (w w' : World) :
  recompute_results format_results assignment self w = (Val p, w') ->
  (forall r, AssignmentParticipation.pk r <> AssignmentParticipation.pk self ->
             In r (participations (db w')) <-> In r (participations (db w))) /\
  db w' = set_participations (participations (db w')) (db w) /\
  calls w' = calls w /\
  AssignmentParticipation.pk p = AssignmentParticipation.pk self.
Proof.
  intros H. pose proof (recompute_results_tables _ _ _ _ _ H) as (Hc & Hpk & Hd).
  split; [| auto].
  apply recompute_results_inv in H as (p0 & w0 & Hu & Hp0 & _ & H).
  apply update_participation_val in Hu as (_ & Hsave & _).
  assert (Hk0 : AssignmentParticipation.pk p0 = AssignmentParticipation.pk self)
    by (rewrite Hp0; reflexivity).
  assert (H0 : forall r,
             AssignmentParticipation.pk r <> AssignmentParticipation.pk self ->
             In r (participations (db w0)) <-> In r (participations (db w))).
  { intros r Hr. unfold Participation_save in Hsave.
    destruct (participation_exists p0 (db w)); injection Hsave as <-; simpl.
    - rewrite Hk0. apply In_update_row_other; [exact Hr | intros; exact Hk0].
    - rewrite in_app_iff. simpl. split; [| auto].
      intros [Hin | [Heq | []]]; [exact Hin |]. subst r. contradiction. }
  intros r Hr. rewrite <- (H0 r Hr).
  destruct (AssignmentParticipation.is_disqualified self).
  - destruct H as (_ & _ & ->). simpl.
    apply In_update_row_other; [exact Hr | intros x Hx; exact Hx].
  - destruct H as (_ & _ & ->). reflexivity.
Qed.

Lemma set_disqualified_val assignment user self disqualified now w p w' :
  set_disqualified format_results rate_assignment assignment user self
    disqualified now w = (Val p, w') ->
  exists w1 w2,
    recompute_results format_results assignment
      (AssignmentParticipation.set_is_disqualified disqualified self) w
    = (Val p, w1) /\
    rerate_if_rated rate_assignment assignment now w1 = (Val tt, w2) /\
    if AssignmentParticipation.is_disqualified p then
      exists w3, leave_if_current user p w2 = (Val tt, w3) /\
                 execute (banned_users_add assignment user) w3 = (Val tt, w')
    else execute (banned_users_remove assignment user) w2 = (Val tt, w').
Proof.
  unfold set_disqualified. intros H.
  apply bind_val in H as (p1 & w1 & Hr & H).
  apply bind_val in H as ([] & w2 & Hrate & H).
  apply bind_val in H as ([] & w4 & Hban & H).
  injection H as <- <-. exists w1, w2. split; [exact Hr |]. split; [exact Hrate |].
  destruct (AssignmentParticipation.is_disqualified p1).
  - apply bind_val in Hban as ([] & w3 & Hl & Hban). eauto.
  - exact Hban.
Qed.

(** X18.  When [set_disqualified] returns, the participation carries the
    flag it was given.  Disqualified, its score is the sentinel -9999 and
    the user is among the banned users of the assignment; reinstated, its
    score is the one the format computes from its submissions and the user
    is not among the banned users. *)
Theorem set_disqualified_returns (assignment : Assignment.t) (user : Profile.t)
    (self p : AssignmentParticipation.t) (disqualified : bool) (now : Z)
    (w w' : World) :
  set_disqualified format_results rate_assignment assignment user self
    disqualified now w = (Val p, w') ->
  AssignmentParticipation.is_disqualified p = disqualified /\
  (disqualified = true ->
   AssignmentParticipation.score p = (-9999) # 1 /\
   (Assignment.pk assignment, Profile.pk user) ∈ banned_users (db w')) /\
  (disqualified = false ->
   AssignmentParticipation.score p
   = fst (fst (natural_results format_results assignment self (db w))) /\
   (Assignment.pk assignment, Profile.pk user) ∉ banned_users (db w')).
Proof.
  intros H. apply set_disqualified_val in H as (w1 & w2 & Hr & _ & Hban).
  apply recompute_results_inv in Hr as (p0 & w0 & _ & _ & Hflag & Hr).
  cbn [AssignmentParticipation.set_is_disqualified
         AssignmentParticipation.is_disqualified] in Hflag, Hr.
  split; [exact Hflag |]. rewrite Hflag in Hban.
  destruct disqualified.
  - split; [| discriminate]. intros _. destruct Hr as (_ & Hscore & _).
    split; [exact Hscore |].
    destruct Hban as (w3 & _ & Hadd). apply execute_val in Hadd as (Hadd & _).
    unfold banned_users_add in Hadd. injection Hadd as <-. simpl.
    apply elem_of_union_l, elem_of_singleton. reflexivity.
  - split; [discriminate |]. intros _. destruct Hr as (_ & Hscore & _).
    split; [exact Hscore |].
    apply execute_val in Hban as (Hrem & _).
    unfold banned_users_remove in Hrem. injection Hrem as <-. simpl.
    intros Hin. apply elem_of_difference in Hin as [_ Hn].
    apply Hn, elem_of_singleton. reflexivity.
Qed.

(** X19.  [set_disqualified] calls the rating engine only for a rated
    assignment that already has rating rows: for an assignment that is not
    rated, or has no rating row, no call of the engine is made. *)
Theorem set_disqualified_rerates_only_rated (assignment : Assignment.t)
    (user : Profile.t) (self p : AssignmentParticipation.t)
    (disqualified : bool) (now : Z) (w w' : World) :
  set_disqualified format_results rate_assignment assignment user self
    disqualified now w = (Val p, w') ->
  Assignment.is_rated assignment = false \/ ratings_exists assignment (db w) = false ->
  calls w' = calls w.
Proof.
  intros H Hnone. apply set_disqualified_val in H as (w1 & w2 & Hr & Hrate & Hban).
  apply recompute_results_tables in Hr as (Hc1 & _ & Hd1).
  assert (Hc2 : calls w2 = calls w1).
  { unfold rerate_if_rated in Hrate. apply bind_val in Hrate as (has & v & Hq & Hrate).
    destruct (Assignment.is_rated assignment) eqn:Hrated.
    - destruct Hnone as [Hn | Hn]; [discriminate Hn |].
      apply query_val in Hq as (Hhas & _ & Hcv).
      assert (Hno : ratings_exists assignment (db w1) = false).
      { unfold ratings_exists in *. rewrite Hd1. exact Hn. }
      rewrite Hhas, Hno in Hrate. inversion Hrate; subst. exact Hcv.
    - inversion Hq; subst. inversion Hrate; subst. reflexivity. }
  assert (Hc3 : calls w' = calls w2).
  { destruct (AssignmentParticipation.is_disqualified p).
    - destruct Hban as (w3 & Hl & Hadd). apply execute_val in Hadd as (_ & Hca & _).
      unfold leave_if_current, remove_assignment in Hl.
      destruct (is_current user p).
      + apply execute_val in Hl as (_ & Hcl & _). congruence.
      + inversion Hl; subst. exact Hca.
    - apply execute_val in Hban as (_ & Hcb & _). exact Hcb. }
  congruence.
Qed.

(** X20.  Disqualifying the participation the user is currently in takes
    the user out of it: when [set_disqualified] returns, the profile of the
    user is stored with no current assignment. *)
Theorem set_disqualified_clears_current (assignment : Assignment.t)
    (user : Profile.t) (self p : AssignmentParticipation.t) (now : Z)
    (w w' : World) :
  set_disqualified format_results rate_assignment assignment user self
    true now w = (Val p, w') ->
  Profile.current_assignment user = Some (AssignmentParticipation.pk self) ->
  (exists r, In r (profiles (db w')) /\ Profile.pk r = Profile.pk user) /\
  (forall r, In r (profiles (db w')) -> Profile.pk r = Profile.pk user ->
             Profile.current_assignment r = None).
Proof.
  intros H Hcur. apply set_disqualified_val in H as (w1 & w2 & Hr & _ & Hban).
  pose proof (recompute_results_tables _ _ _ _ _ Hr) as (_ & Hpk & _).
  apply recompute_results_inv in Hr as (_ & _ & _ & _ & Hflag & _).
  cbn in Hflag. rewrite Hflag in Hban. destruct Hban as (w3 & Hl & Hadd).
  apply execute_val in Hadd as (Hadd & _).
  unfold banned_users_add in Hadd. injection Hadd as <-. cbn [profiles set_banned_users].
  unfold leave_if_current, is_current in Hl. rewrite Hcur, Hpk in Hl.
  cbn in Hl. rewrite Z.eqb_refl in Hl.
  unfold remove_assignment in Hl. apply execute_val in Hl as (Hsave & _).
  unfold Profile_save in Hsave. cbn [Profile.pk Profile.set_current_assignment] in Hsave.
  destruct (existsb (fun r => Profile.pk r =? Profile.pk user) (profiles (db w2)))
    eqn:Hex; injection Hsave as <-; cbn [profiles set_profiles].
  - split.
    + apply existsb_exists in Hex as (r & Hin & Hk). eexists. split.
      * apply in_map_iff. exists r. split; [reflexivity | exact Hin].
      * rewrite Hk. reflexivity.
    + intros r Hin Hk. apply in_map_iff in Hin as (r0 & Hr0 & _).
      destruct (Profile.pk r0 =? Profile.pk user) eqn:E.
      * subst r. reflexivity.
      * subst r0. apply Z.eqb_neq in E. contradiction.
  - split.
    + eexists. split; [apply in_or_app; right; left; reflexivity | reflexivity].
    + intros r Hin Hk. apply in_app_or in Hin as [Hin | [<- | []]]; [| reflexivity].
      exfalso. assert (Hyes : existsb (fun r0 => Profile.pk r0 =? Profile.pk user)
                                (profiles (db w2)) = true).
      { apply existsb_exists. exists r. split; [exact Hin | apply Z.eqb_eq, Hk]. }
      congruence.
Qed.

(** X21.  [clean] accepts an assignment exactly when its window is not
    inverted, the configuration of its format is valid and the label of the
    first problem is a string. *)
Theorem clean_accepts_iff (self : Assignment.t) :
  clean format_validate label_for_problem self = Val tt <->
  starts_after_end self = false /\
  format_validate (Assignment.format_name self) (Assignment.format_config self)
  = Val tt /\
  exists label, label_for_problem self 0 = Returned (PyStr label).
Proof.
  unfold clean, check_format_and_label.
  destruct (starts_after_end self).
  { split; [discriminate | intros [H _]; discriminate H]. }
  destruct (format_validate _ _) as [[] | e].
  2:{ split; [discriminate | intros (_ & H & _); discriminate H]. }
  destruct (label_for_problem self 0) as [[s |] | msg]; cbn.
  - split; [eauto | reflexivity].
  - split; [discriminate | intros (_ & _ & s & H); discriminate H].
  - split; [discriminate | intros (_ & _ & s & H); discriminate H].
Qed.

End MoreOnOperations.

(** ** More on the time window of a participation *)

(** X22.  [ended] and [time_remaining] are complementary on a participation
    that has an end: it has ended exactly when no time remains to be
    reported, and a reported remaining time is never negative; at the very
    instant of the end the participation has not ended and the remaining
    time is zero. *)
Theorem ended_iff_no_time_remaining (a : Assignment.t)
    (p : AssignmentParticipation.t) (now t : Z) :
  AssignmentParticipation.end_time a p = Val (Some t) ->
  (AssignmentParticipation.ended a p now = Val true <->
   AssignmentParticipation.time_remaining a p now = Val None) /\
  (forall d, AssignmentParticipation.time_remaining a p now = Val (Some d) ->
             0 <= d /\ AssignmentParticipation.ended a p now = Val false) /\
  (t = now ->
   AssignmentParticipation.ended a p now = Val false /\
   AssignmentParticipation.time_remaining a p now = Val (Some 0)).
Proof.
  intros He.
  unfold AssignmentParticipation.ended, AssignmentParticipation.time_remaining.
  rewrite He.
  destruct (Z.ltb_spec t now) as [H1 | H1];
    destruct (Z.leb_spec now t) as [H2 | H2]; try lia.
  - split; [split; reflexivity |]. split.
    + intros d H. discriminate H.
    + intros ->. lia.
  - split; [split; intros H; discriminate H |]. split.
    + intros d H. injection H as <-. split; [lia | reflexivity].
    + intros ->. rewrite Z.sub_diag. auto.
Qed.

(** X23.  A live or spectating participation never ends after its
    assignment: whenever [end_time] returns, the end is at most the end of
    the assignment.  A spectating participation, and a live one on an
    assignment with no time limit, end with the assignment, and the latter
    starts with it, whatever its own real start.  A live participation with
    a time limit ends at the lesser of its real start plus the limit and the
    end of the assignment when that sum is a datetime; when it is not, the
    addition raises [OverflowError]. *)
Theorem live_participation_within_window (a : Assignment.t)
    (p : AssignmentParticipation.t) (S E : Z) :
  Assignment.start_time a = Some S ->
  Assignment.end_time a = Some E ->
  AssignmentParticipation.virtual p = 0 \/ AssignmentParticipation.virtual p = -1 ->
  (forall r, AssignmentParticipation.end_time a p = Val r ->
             exists t, r = Some t /\ t <= E) /\
  (AssignmentParticipation.virtual p = -1 ->
   AssignmentParticipation.end_time a p = Val (Some E)) /\
  (Assignment.time_limit a = None ->
   AssignmentParticipation.start a p = Some S /\
   AssignmentParticipation.end_time a p = Val (Some E)) /\
  (forall l,
      Assignment.time_limit a = Some l ->
      AssignmentParticipation.virtual p = 0 ->
      (AssignmentParticipation.DATETIME_MIN
       <= AssignmentParticipation.real_start p + l
       <= AssignmentParticipation.DATETIME_MAX ->
       AssignmentParticipation.end_time a p
       = Val (Some (Z.min (AssignmentParticipation.real_start p + l) E))) /\
      (~ (AssignmentParticipation.DATETIME_MIN
          <= AssignmentParticipation.real_start p + l
          <= AssignmentParticipation.DATETIME_MAX) ->
       AssignmentParticipation.end_time a p
       = Raise (OverflowError "date value out of range"))).
Proof.
  intros HS HE Hv. rewrite (end_time_cases a p S E HS HE).
  unfold AssignmentParticipation.start, AssignmentParticipation.live,
    AssignmentParticipation.spectate, AssignmentParticipation.LIVE,
    AssignmentParticipation.SPECTATE.
  destruct Hv as [Hv | Hv]; rewrite Hv; cbn [Z.eqb Pos.eqb orb].
  - split; [| split; [discriminate | split]].
    + intros r Hr. destruct (Assignment.time_limit a) as [l |].
      * destruct (AssignmentParticipation.datetime_add _ l) as [t |]; inversion Hr.
        eexists. split; [reflexivity | lia].
      * inversion Hr. eexists. split; [reflexivity | lia].
    + intros ->. rewrite HS. auto.
    + intros l -> _. split.
      * intros Hrange. rewrite (datetime_add_in_range _ _ Hrange). reflexivity.
      * intros Hout. unfold AssignmentParticipation.datetime_add.
        destruct (Z.leb_spec AssignmentParticipation.DATETIME_MIN
                    (AssignmentParticipation.real_start p + l)) as [Hlo | Hlo];
          destruct (Z.leb_spec (AssignmentParticipation.real_start p + l)
                      AssignmentParticipation.DATETIME_MAX) as [Hhi | Hhi];
          cbn [andb]; try reflexivity.
        exfalso. apply Hout. split; assumption.
  - split; [| split; [reflexivity | split]].
    + intros r Hr. inversion Hr. eexists. split; [reflexivity | lia].
    + intros ->. rewrite HS. auto.
    + intros l _ Hlive. discriminate Hlive.
Qed.

(** ** The added properties on sample data *)

(** X1 at the colour "#abc" and its long form "#aabbcc". *)
Lemma components_short_is_doubled_witness :
  AssignmentTag.components "#abc" = inl (170%N, 187%N, 204%N) /\
  AssignmentTag.components "#aabbcc" = inl (170%N, 187%N, 204%N).
Proof.
  apply (components_short_is_doubled (Ascii.ascii_of_nat 35) (Ascii.ascii_of_nat 35)
           (Ascii.ascii_of_nat 97) (Ascii.ascii_of_nat 98) (Ascii.ascii_of_nat 99)
           10 11 12); reflexivity.
Defined.

(** X2 at the colour "#204060". *)
Lemma text_color_of_valid_colour_witness :
  exists r g b,
    AssignmentTag.components "#204060" = inl (r, g, b) /\ (r < 256)%N.
Proof.
  destruct (text_color_of_valid_colour (Ascii.ascii_of_nat 35) "204060" eq_refl
              (or_intror eq_refl))
    as (r & g & b & Hc & Hr & _).
  exists r, g, b. split; [exact Hc | exact Hr].
Defined.

(** X3 at "#ff", two digits. *)
Lemma text_color_of_wrong_length_witness :
  exists msg,
    AssignmentTag.text_color "#ff" ∅ = (inr (AssignmentTag.ValueError msg), ∅).
Proof.
  apply (text_color_of_wrong_length "#ff" ∅);
    [reflexivity | discriminate | discriminate | apply lookup_empty].
Defined.

(** X4 at "#fff" on the empty cache. *)
Lemma text_color_cache_witness :
  AssignmentTag.text_color "#fff" (<["#fff"%string := "#000"%string]> ∅)
  = (inl "#000"%string, <["#fff"%string := "#000"%string]> ∅).
Proof.
  assert (H : AssignmentTag.text_color "#fff" ∅
              = (inl "#000"%string, <["#fff"%string := "#000"%string]> ∅)).
  { unfold AssignmentTag.text_color. rewrite lookup_empty. reflexivity. }
  apply (proj1 (proj2 (proj1 (proj2
           (text_color_cache "#fff" ∅ _ _ H)) "#000"%string eq_refl))).
Defined.

(** X5 at the start of the assignment that starts at 0. *)
Lemma can_join_and_time_before_start_witness :
  can_join Sample.a1 0 = Val true /\ time_before_start Sample.a1 0 = Val (Some 0).
Proof.
  apply (proj1 (proj2 (proj2
           (can_join_and_time_before_start Sample.a1 0 0 eq_refl))) eq_refl).
Defined.

(** X6 on the assignment of window 0 to 50, seen at 60. *)
Lemma assignment_ended_and_time_before_end_witness :
  can_join Sample.a1 60 = Val true.
Proof.
  apply (proj1 (proj2
           (assignment_ended_and_time_before_end Sample.a1 60 0 50
              eq_refl eq_refl ltac:(lia))) eq_refl).
Defined.

(** X7 on the same assignment with a scoreboard hidden until the end, seen
    at 10. *)
Lemma show_scoreboard_cases_witness :
  show_scoreboard Sample.a1 Fixtures.acl_hidden 10 = Val false.
Proof.
  apply (proj2 (proj2 (show_scoreboard_cases Sample.a1 Fixtures.acl_hidden 10 0 eq_refl))
           50 eq_refl ltac:(lia) (or_introl eq_refl)).
Defined.

(** X9 for a user without privileges on the hidden scoreboard at 10. *)
Lemma can_see_own_scoreboard_cases_witness :
  can_see_own_scoreboard Sample.a1 Fixtures.acl_hidden Fixtures.ordinary
    Sample.d0 10 10 = Val false.
Proof.
  apply (can_see_own_scoreboard_cases Sample.a1 Fixtures.acl_hidden
           Fixtures.ordinary Sample.d0 10 10 false true false); reflexivity.
Defined.

(** X11 for the same user. *)
Lemma hidden_scoreboard_modes_witness :
  can_see_full_scoreboard Sample.a1 Fixtures.acl_hidden Fixtures.ordinary
    Sample.d0 10 10 = Val false.
Proof.
  refine (proj1 (hidden_scoreboard_modes Sample.a1 Fixtures.acl_hidden
                   Fixtures.no_perms Sample.u7 ∅ Sample.d0 10 10 0 50
                   eq_refl eq_refl _ eq_refl eq_refl _ _) eq_refl).
  - lia.
  - apply not_elem_of_union. split; apply not_elem_of_empty.
  - apply not_elem_of_empty.
Defined.

(** X13 for the author of an invisible, private assignment. *)
Lemma editable_is_accessible_witness :
  is_accessible_by Fixtures.acl_authored Fixtures.editor = true.
Proof.
  apply (editable_is_accessible Fixtures.acl_authored Fixtures.editor).
  vm_compute. reflexivity.
Defined.

(** X15 on the assignment that ends at 100, rated at 50. *)
Lemma rate_before_end_does_nothing_witness :
  rate Sample.one_row Sample.a2 50 Sample.w0 = (Val tt, Sample.w0).
Proof.
  apply (rate_before_end_does_nothing Sample.one_row Sample.a2 50 100 Sample.w0);
    [reflexivity | lia | reflexivity].
Defined.

(** X17 on the participation 11 of the sample database. *)
Lemma recompute_results_touches_one_row_witness :
  exists p w',
    recompute_results Sample.sum_points Sample.a1 Sample.p1 Sample.w0 = (Val p, w') /\
    calls w' = calls Sample.w0.
Proof.
  eexists _, _. split; [reflexivity |].
  apply (proj1 (proj2 (proj2
           (recompute_results_touches_one_row Sample.sum_points Sample.a1
              Sample.p1 _ Sample.w0 _ eq_refl)))).
Defined.

(** X18 and X19 on the participation 13 of the unrated assignment. *)
Lemma set_disqualified_returns_witness :
  exists p w',
    set_disqualified Sample.sum_points Sample.one_row Sample.a3 Sample.u7
      Sample.p3 true 100 Fixtures.w_unrated = (Val p, w') /\
    AssignmentParticipation.score p = (-9999) # 1.
Proof.
  eexists _, _. split; [reflexivity |].
  apply (proj1 (proj1 (proj2
           (set_disqualified_returns Sample.sum_points Sample.one_row Sample.a3
              Sample.u7 Sample.p3 _ true 100 Fixtures.w_unrated _ eq_refl))
           eq_refl)).
Defined.

Lemma set_disqualified_rerates_only_rated_witness :
  exists p w',
    set_disqualified Sample.sum_points Sample.one_row Sample.a3 Sample.u7
      Sample.p3 true 100 Fixtures.w_unrated = (Val p, w') /\
    calls w' = calls Fixtures.w_unrated.
Proof.
  eexists _, _. split; [reflexivity |].
  apply (set_disqualified_rerates_only_rated Sample.sum_points Sample.one_row
           Sample.a3 Sample.u7 Sample.p3 _ true 100 Fixtures.w_unrated _ eq_refl
           (or_introl eq_refl)).
Defined.

(** X20 on a user who is currently in the participation 13. *)
Lemma set_disqualified_clears_current_witness :
  exists p w',
    set_disqualified Sample.sum_points Sample.one_row Sample.a3 Fixtures.u_current
      Sample.p3 true 100 Fixtures.w_current = (Val p, w') /\
    forall r, In r (profiles (db w')) -> Profile.pk r = 7 ->
              Profile.current_assignment r = None.
Proof.
  eexists _, _. split; [reflexivity |].
  apply (proj2 (set_disqualified_clears_current Sample.sum_points Sample.one_row
                  Sample.a3 Fixtures.u_current Sample.p3 _ 100 Fixtures.w_current
                  _ eq_refl eq_refl)).
Defined.

(** X22 and X23 on the live participation of the assignment that ends at
    50. *)
Lemma ended_iff_no_time_remaining_witness :
  AssignmentParticipation.ended Sample.a1 Sample.p1 50 = Val false /\
  AssignmentParticipation.time_remaining Sample.a1 Sample.p1 50 = Val (Some 0).
Proof.
  apply (proj2 (proj2 (ended_iff_no_time_remaining Sample.a1 Sample.p1 50 50 eq_refl))
           eq_refl).
Defined.

Lemma live_participation_within_window_witness :
  AssignmentParticipation.end_time Sample.a1 Sample.p1 = Val (Some 50) /\
  exists t, Some 50 = Some t /\ t <= 50.
Proof.
  split; [reflexivity |].
  apply (proj1 (live_participation_within_window Sample.a1 Sample.p1 0 50
                  eq_refl eq_refl (or_introl eq_refl)) (Some 50) eq_refl).
Defined.
